(** * react-to-dynamic-markup: the Document renderer of require/Document.cjs

    A shallow embedding of the class [Document]: the recursive serializer
    [#renderToString], the attribute and event extraction of [#parseTag],
    the identifier counter and listener registry kept in the instance
    fields [#identifier] and [#listeners], the page template of
    [renderToDynamicMarkup], and the setters and builder methods
    ([setLang], [addMeta], [addStyle], [addHeaderScript], ...).

    JavaScript values are a small inductive type; asynchronous calls are
    awaited one after the other in the source, so they are modelled as
    plain sequential calls.  A thrown exception and unbounded recursion
    through components are explicit outcomes. *)

From Stdlib Require Import String Ascii List Bool Arith ZArith Lia.
From Stdlib Require Import DecimalString DecimalNat.
Import ListNotations.
Local Open Scope list_scope.
Local Open Scope string_scope.
Set Warnings "-register-all".

(* ================================================================== *)
(** ** Text helpers *)

(** The double quote and the line feed, which the template literals of the
    source contain. *)
Definition dq : string := String (ascii_of_nat 34) EmptyString.
Definition nl : string := String (ascii_of_nat 10) EmptyString.

(** [Array.prototype.join] on an array of strings. *)
Fixpoint join (sep : string) (parts : list string) : string :=
  match parts with
  | [] => ""
  | [p] => p
  | p :: rest => p ++ sep ++ join sep rest
  end.

(** [String.prototype.toLowerCase], on the ASCII letters: a string is its
    bytes, and letters outside ASCII are left as they are. *)
Definition lower_ascii (c : ascii) : ascii :=
  let n := nat_of_ascii c in
  if Nat.leb 65 n && Nat.leb n 90 then ascii_of_nat (n + 32) else c.

Fixpoint toLowerCase (s : string) : string :=
  match s with
  | EmptyString => EmptyString
  | String c rest => String (lower_ascii c) (toLowerCase rest)
  end.

(** [s.startsWith(p)]. *)
Definition startsWith (s p : string) : bool := String.prefix p s.

(** [s.substring(n)]: the text from index [n] to the end. *)
Fixpoint substring_from (n : nat) (s : string) : string :=
  match n, s with
  | O, _ => s
  | S _, EmptyString => EmptyString
  | S m, String _ rest => substring_from m rest
  end.

(** Whether the character [c] occurs in [s]. *)
Fixpoint occurs (c : ascii) (s : string) : bool :=
  match s with
  | EmptyString => false
  | String a rest => Ascii.eqb a c || occurs c rest
  end.

(** Decimal text of a non-negative integer, as a template literal prints
    the identifier counter. *)
Definition decimal (n : nat) : string :=
  NilEmpty.string_of_uint (Nat.to_uint n).

(** Decimal text of an integer-valued number, as [String(n)] prints the
    integers below 1e21 in magnitude. *)
Definition decimal_Z (z : Z) : string :=
  NilEmpty.string_of_int (Z.to_int z).

(* ================================================================== *)
(** ** Outcomes *)

(** What a call of the source can do: return, throw, or recurse without
    bound (the model's fuel ran out). *)
Inductive outcome (A : Type) : Type :=
| Ok (a : A)
| Throw (message : string)
| Diverge.
Arguments Ok {A} a.
Arguments Throw {A} message.
Arguments Diverge {A}.

Definition bind {A B : Type} (m : outcome A) (k : A -> outcome B) : outcome B :=
  match m with
  | Ok a => k a
  | Throw e => Throw e
  | Diverge => Diverge
  end.

Notation "x <- m ;; k" := (bind m (fun x => k))
  (at level 61, m at next level, right associativity).
Notation "' pat <- m ;; k" := (bind m (fun x => match x with pat => k end))
  (at level 61, pat pattern, m at next level, right associativity).

Fixpoint mapM {A B : Type} (f : A -> outcome B) (l : list A) : outcome (list B) :=
  match l with
  | [] => Ok []
  | a :: rest => b <- f a ;; bs <- mapM f rest ;; Ok (b :: bs)
  end.

(* ================================================================== *)
(** ** JavaScript values *)

(** A callable: its identity, under which the environment knows its
    behaviour, and its source text, which [Function.prototype.toString]
    returns. *)
Record callable : Type := { fn_id : nat; fn_source : string }.

(** The values a node, a [type], a [props] object or an attribute value can
    be.  A number is integer-valued and below 1e21 in magnitude (its
    [String()] is plain decimal text; fractions, [NaN], the infinities and
    the exponent form are left out);
    an object is the list of its own enumerable entries in the order
    [Object.entries] lists them. *)
Inductive value : Type :=
| VUndefined
| VNull
| VBool (b : bool)
| VNum (n : Z)
| VStr (s : string)
| VSymbol (description : string)
| VFun (f : callable)
| VArr (items : list value)
| VObj (entries : list (string * value)).

Inductive js_type : Type :=
| TUndefined | TObject | TBoolean | TNumber | TString | TSymbol | TFunction.

(** The [typeof] operator. *)
Definition typeof (v : value) : js_type :=
  match v with
  | VUndefined => TUndefined
  | VNull => TObject
  | VBool _ => TBoolean
  | VNum _ => TNumber
  | VStr _ => TString
  | VSymbol _ => TSymbol
  | VFun _ => TFunction
  | VArr _ => TObject
  | VObj _ => TObject
  end.

Definition js_type_eqb (a b : js_type) : bool :=
  match a, b with
  | TUndefined, TUndefined | TObject, TObject | TBoolean, TBoolean
  | TNumber, TNumber | TString, TString | TSymbol, TSymbol
  | TFunction, TFunction => true
  | _, _ => false
  end.

(** Truthiness, as [if (props.children)] tests it. *)
Definition truthy (v : value) : bool :=
  match v with
  | VUndefined | VNull => false
  | VBool b => b
  | VNum n => negb (Z.eqb n 0)
  | VStr s => negb (String.eqb s "")
  | _ => true
  end.

Fixpoint lookup (key : string) (entries : list (string * value)) : option value :=
  match entries with
  | [] => None
  | (k, v) :: rest => if String.eqb k key then Some v else lookup key rest
  end.

(** Property read [v.key]: throws on [null] and [undefined], finds nothing
    on the other values that are not plain objects. *)
Definition get_member (v : value) (key : string) : outcome value :=
  match v with
  | VUndefined | VNull =>
      Throw ("TypeError: Cannot read properties of null or undefined (reading '" ++ key ++ "')")
  | VObj entries =>
      match lookup key entries with Some x => Ok x | None => Ok VUndefined end
  | _ => Ok VUndefined
  end.

(** The string conversion of a template literal, [`${v}`]. *)
Fixpoint to_str (v : value) : outcome string :=
  match v with
  | VUndefined => Ok "undefined"
  | VNull => Ok "null"
  | VBool true => Ok "true"
  | VBool false => Ok "false"
  | VNum n => Ok (decimal_Z n)
  | VStr s => Ok s
  | VSymbol _ => Throw "TypeError: Cannot convert a Symbol value to a string"
  | VFun f => Ok (fn_source f)
  | VArr items =>
      parts <- (fix each (l : list value) : outcome (list string) :=
                  match l with
                  | [] => Ok []
                  | x :: rest =>
                      p <- match x with
                           | VUndefined | VNull => Ok ""
                           | _ => to_str x
                           end ;;
                      ps <- each rest ;;
                      Ok (p :: ps)
                  end) items ;;
      Ok (join "," parts)
  | VObj _ => Ok "[object Object]"
  end.

(** The method call [v.toString()]. *)
Definition method_toString (v : value) : outcome string :=
  match v with
  | VUndefined | VNull =>
      Throw "TypeError: Cannot read properties of null or undefined (reading 'toString')"
  | VSymbol d => Ok ("Symbol(" ++ d ++ ")")
  | _ => to_str v
  end.

Fixpoint indexed {A : Type} (i : nat) (l : list A) : list (string * A) :=
  match l with
  | [] => []
  | x :: rest => (decimal i, x) :: indexed (S i) rest
  end.

Fixpoint chars (s : string) : list value :=
  match s with
  | EmptyString => []
  | String c rest => VStr (String c EmptyString) :: chars rest
  end.

(** The own enumerable entries of a value. *)
Definition own_entries (v : value) : list (string * value) :=
  match v with
  | VObj entries => entries
  | VArr items => indexed 0 items
  | VStr s => indexed 0 (chars s)
  | _ => []
  end.

(** [Object.entries(v)]. *)
Definition object_entries (v : value) : outcome (list (string * value)) :=
  match v with
  | VUndefined | VNull =>
      Throw "TypeError: Cannot convert undefined or null to object"
  | _ => Ok (own_entries v)
  end.

(** The object spread [{...props, children: c}]. *)
Fixpoint set_entry (key : string) (v : value) (entries : list (string * value))
  : list (string * value) :=
  match entries with
  | [] => [(key, v)]
  | (k, x) :: rest =>
      if String.eqb k key then (k, v) :: rest else (k, x) :: set_entry key v rest
  end.

Definition spread_with_children (props : value) (c : value) : value :=
  VObj (set_entry "children" c (own_entries props)).

(* ================================================================== *)
(** ** The Document *)

(** An entry of the local array [eventListeners] of [#parseTag]. *)
Record EventListener : Type := { type : string; listener : string }.

(** The locals of [#parseTag] that its [forEach] callback updates. *)
Record tag_locals : Type := {
  html : string;
  children : value;
  eventListeners : list EventListener
}.

(** The private fields of the class.  The fragments of [#metas], [#links],
    [#styles], [#headerScripts] and [#bodyScripts] are held as the strings
    their promises resolve to.  The creation callback, like the callables it
    calls, is a function of its arguments: code of the caller that writes to
    the Document while a render runs (a component that calls [setLang]) is
    left out. *)
Record Document : Type := {
  identifier : nat;
  lang : string;
  title : string;
  metas : list string;
  links : list string;
  styles : list string;
  headerScripts : list string;
  bodyScripts : list string;
  noScript : string;
  listeners : list string;
  createComponent : value -> value -> outcome value
}.

(** The two writes of a render pass: [this.#identifier++] and
    [this.#listeners.push(...)]. *)
Definition with_registry (doc : Document) (counter : nat) (registry : list string)
  : Document :=
  {| identifier := counter;
     lang := lang doc;
     title := title doc;
     metas := metas doc;
     links := links doc;
     styles := styles doc;
     headerScripts := headerScripts doc;
     bodyScripts := bodyScripts doc;
     noScript := noScript doc;
     listeners := registry;
     createComponent := createComponent doc |}.

Definition setCreateComponentCallback
  (callback : value -> value -> outcome value) (doc : Document) : Document :=
  {| identifier := identifier doc;
     lang := lang doc;
     title := title doc;
     metas := metas doc;
     links := links doc;
     styles := styles doc;
     headerScripts := headerScripts doc;
     bodyScripts := bodyScripts doc;
     noScript := noScript doc;
     listeners := listeners doc;
     createComponent := callback |}.

Section Callables.

(** The behaviour of the callables of the program that uses the library:
    what a component returns (after it is awaited) on its arguments. *)
Variable invoke : callable -> list value -> outcome value.

(** A call [component(args)]. *)
Definition call (component : value) (args : list value) : outcome value :=
  match component with
  | VFun f => invoke f args
  | _ => Throw "TypeError: component is not a function"
  end.

(** [new Document()], with the field initializers of the class; the
    initial [#createComponent] is [(component, props) => component(props)]. *)
Definition new_Document : Document :=
  {| identifier := 0;
     lang := "en";
     title := "Rendered as dynamic markup";
     metas := [];
     links := [];
     styles := [];
     headerScripts := [];
     bodyScripts := [];
     noScript := "Your browser does not support JavaScript!";
     listeners := [];
     createComponent := fun component props => call component [props] |}.

End Callables.

(* ================================================================== *)
(** ** [#parseTag] *)

Definition is_function (v : value) : bool := js_type_eqb (typeof v) TFunction.

Definition set_html (acc : tag_locals) (h : string) : tag_locals :=
  {| html := h; children := children acc; eventListeners := eventListeners acc |}.

Definition set_listeners (acc : tag_locals) (evs : list EventListener) : tag_locals :=
  {| html := html acc; children := children acc; eventListeners := evs |}.

(** One entry of a style object: [`${key}:${value.toString()}`]. *)
Definition style_entry (entry : string * value) : outcome string :=
  let (key, value) := entry in
  s <- method_toString value ;;
  Ok (key ++ ":" ++ s).

(** The callback of [Object.entries(attributes).forEach]. *)
Definition attribute_step (acc : tag_locals) (entry : string * value)
  : outcome tag_locals :=
  let (key, value) := entry in
  if String.eqb key "children" then
    Ok {| html := html acc; children := value; eventListeners := eventListeners acc |}
  else if startsWith (toLowerCase key) "on" && is_function value then
    s <- method_toString value ;;
    Ok {| html := html acc;
          children := children acc;
          eventListeners :=
            (eventListeners acc
               ++ [{| type := toLowerCase (substring_from 2 key); listener := s |}])%list |}
  else if String.eqb (toLowerCase key) "style" && js_type_eqb (typeof value) TObject then
    es <- object_entries value ;;
    parts <- mapM style_entry es ;;
    Ok (set_html acc (html acc ++ " style=" ++ dq ++ join ";" parts ++ dq))
  else if js_type_eqb (typeof value) TBoolean then
    match value with
    | VBool true => Ok (set_html acc (html acc ++ " " ++ key))
    | _ => Ok acc
    end
  else if negb (js_type_eqb (typeof value) TSymbol) then
    let key := if String.eqb key "className" then "class" else key in
    s <- to_str value ;;
    Ok (set_html acc (html acc ++ " " ++ key ++ "=" ++ dq ++ s ++ dq))
  else Ok acc.

Fixpoint forEach_entry (entries : list (string * value)) (acc : tag_locals)
  : outcome tag_locals :=
  match entries with
  | [] => Ok acc
  | entry :: rest => acc' <- attribute_step acc entry ;; forEach_entry rest acc'
  end.

(** The identifier [`${type}_${this.#identifier++}`]. *)
Definition mk_identifier (tag : string) (counter : nat) : string :=
  tag ++ "_" ++ decimal counter.

(** The text pushed on [#listeners] for one identified element. *)
Definition listener_entry (id : string) (evs : list EventListener) : string :=
  "const " ++ id ++ " = document.querySelector('[data-identifier="
    ++ dq ++ id ++ dq ++ "]');" ++ nl
    ++ join nl
         (map (fun e => id ++ ".addEventListener(" ++ dq ++ type e ++ dq
                          ++ ", " ++ listener e ++ ");") evs).

(** The block [if (eventListeners.length > 0) { ... }]. *)
Definition register_listeners (tag : string) (acc : tag_locals) (doc : Document)
  : string * Document :=
  match eventListeners acc with
  | [] => (html acc, doc)
  | evs =>
      let id := mk_identifier tag (identifier doc) in
      (html acc ++ " data-identifier=" ++ dq ++ id ++ dq
         ++ " data-listeners=" ++ dq ++ join ", " (map type evs) ++ dq,
       with_registry doc (S (identifier doc))
         (listeners doc ++ [listener_entry id evs])%list)
  end.

Section Serializer.

(** The recursive call [this.#renderToString]. *)
Variable render : value -> Document -> outcome (string * Document).

Definition parseTag (type attributes : value) (doc : Document)
  : outcome (string * Document) :=
  tag <- to_str type ;;
  entries <- object_entries attributes ;;
  acc <- forEach_entry entries
           {| html := "<" ++ tag; children := VStr ""; eventListeners := [] |} ;;
  let (h, doc1) := register_listeners tag acc doc in
  '(inner, doc2) <- render (children acc) doc1 ;;
  Ok (h ++ ">" ++ inner ++ "</" ++ tag ++ ">", doc2).

(** The loop [for (const el of element) html += await render(el)]. *)
Fixpoint render_each (items : list value) (h : string) (doc : Document)
  : outcome (string * Document) :=
  match items with
  | [] => Ok (h, doc)
  | el :: rest =>
      '(s, doc1) <- render el doc ;;
      render_each rest (h ++ s) doc1
  end.

(** The body of [#renderToString] after the scalar and array tests:
    [let { type, props = {} } = element] and the dispatch on [typeof type]. *)
Definition render_element (element : value) (doc : Document)
  : outcome (string * Document) :=
  type <- get_member element "type" ;;
  p <- get_member element "props" ;;
  let props := match p with VUndefined => VObj [] | _ => p end in
  match typeof type with
  | TSymbol =>
      c <- get_member props "children" ;;
      if truthy c then
        '(s, doc1) <- render c doc ;;
        Ok ("" ++ s, doc1)
      else Ok ("", doc)
  | TFunction =>
      c <- get_member props "children" ;;
      if truthy c then
        '(s, doc1) <- render c doc ;;
        node <- createComponent doc1 type (spread_with_children props (VStr s)) ;;
        render node doc1
      else
        node <- createComponent doc type props ;;
        render node doc
  | _ => parseTag type props doc
  end.

End Serializer.

(* ================================================================== *)
(** ** [#renderToString] and [renderToDynamicMarkup] *)

(** [fuel] bounds the depth of the recursion: the source recurses through
    whatever the components return, without a bound. *)
Fixpoint renderToString (fuel : nat) (element : value) (doc : Document)
  {struct fuel} : outcome (string * Document) :=
  match fuel with
  | O => Diverge
  | S n =>
      match element with
      | VUndefined => Ok ("undefined", doc)
      | VNull => Ok ("null", doc)
      | VStr s => Ok (s, doc)
      | VNum k => Ok (decimal_Z k, doc)
      | VArr items => render_each (renderToString n) items "" doc
      | _ => render_element (renderToString n) element doc
      end
  end.

(** The deferred script of the page: the registry joined by blank lines
    inside one [DOMContentLoaded] listener. *)
Definition script_block (registry : list string) : string :=
  "                    <script>" ++ nl
    ++ "document.addEventListener('DOMContentLoaded', function() {" ++ nl
    ++ join (nl ++ nl) registry ++ nl
    ++ "});" ++ nl
    ++ "                    </script>" ++ nl.

(** The template literal of [renderToDynamicMarkup] before the script... *)
Definition page_top (doc : Document) (content : string) : string :=
  nl
    ++ "            <!DOCTYPE html>" ++ nl
    ++ "            <html lang='" ++ lang doc ++ "'>" ++ nl
    ++ "                <head>" ++ nl
    ++ "                    <title>" ++ title doc ++ "</title>" ++ nl
    ++ "                    " ++ join nl (metas doc) ++ nl
    ++ "                    " ++ join nl (links doc) ++ nl
    ++ "                    " ++ join nl (styles doc) ++ nl
    ++ "                    " ++ join nl (headerScripts doc) ++ nl
    ++ "                </head>" ++ nl
    ++ "                <body>" ++ nl
    ++ "                    " ++ content ++ nl
    ++ "                    " ++ join nl (bodyScripts doc) ++ nl.

(** ... and after it. *)
Definition page_bottom (doc : Document) : string :=
  "                    <noscript>" ++ noScript doc ++ "</noscript>" ++ nl
    ++ "                </body>" ++ nl
    ++ "            </html>" ++ nl
    ++ "        ".

Definition page (doc : Document) (content : string) : string :=
  page_top doc content ++ script_block (listeners doc) ++ page_bottom doc.

(** [renderToDynamicMarkup]: the content is rendered first, the template
    reads the fields afterwards. *)
Definition renderToDynamicMarkup (fuel : nat) (reactElement : value) (doc : Document)
  : outcome (string * Document) :=
  '(content, doc') <- renderToString fuel reactElement doc ;;
  Ok (page doc' content, doc').

(* ================================================================== *)
(** ** The registry of a render pass *)

(** An identified element of a pass: its tag text and its event listeners. *)
Definition discovery : Type := (string * list EventListener)%type.

(** The identifiers of the elements of [log] when the counter stands at
    [counter] before the first of them. *)
Fixpoint identifiers_from (counter : nat) (log : list discovery) : list string :=
  match log with
  | [] => []
  | (tag, _) :: rest => mk_identifier tag counter :: identifiers_from (S counter) rest
  end.

(** The texts pushed on [#listeners] for them. *)
Fixpoint registry_from (counter : nat) (log : list discovery) : list string :=
  match log with
  | [] => []
  | (tag, evs) :: rest =>
      listener_entry (mk_identifier tag counter) evs :: registry_from (S counter) rest
  end.

(** [doc'] is [doc] after a pass that identified the elements of [log]:
    the counter advanced once per element, the registry grew by their
    entries, and every element of the log has a listener. *)
Definition extends (doc doc' : Document) (log : list discovery) : Prop :=
  doc' = with_registry doc (identifier doc + length log)
           (listeners doc ++ registry_from (identifier doc) log)%list
  /\ Forall (fun e : discovery => snd e <> []) log.

(** A render function whose every returning call extends the document. *)
Definition logs (render : value -> Document -> outcome (string * Document)) : Prop :=
  forall element doc out doc',
    render element doc = Ok (out, doc') -> exists log, extends doc doc' log.

(** Every returning call of [r1] returns the same from [r2]. *)
Definition refines (r1 r2 : value -> Document -> outcome (string * Document)) : Prop :=
  forall element doc res, r1 element doc = Ok res -> r2 element doc = Ok res.

(* ================================================================== *)
(** ** The node model of the specification *)

(** The nodes of section 3 of the specification that hold no component
    reference.  An attribute value is any value. *)
Inductive Node : Type :=
| Text (s : string)
| Number (n : Z)
| Boolean (b : bool)
| Null
| Undefined
| List (items : list Node)
| Fragment (content : Node)
| Element (tagName : string) (attributes : list (string * value)) (content : Node).

(** The React element a node stands for: [{ type, props }] with the children
    under [props.children]; a fragment has a symbol for [type]. *)
Fixpoint to_value (nd : Node) : value :=
  match nd with
  | Text s => VStr s
  | Number n => VNum n
  | Boolean b => VBool b
  | Null => VNull
  | Undefined => VUndefined
  | List items => VArr (map to_value items)
  | Fragment content =>
      VObj [("type", VSymbol "react.fragment");
            ("props", VObj [("children", to_value content)])]
  | Element tagName attributes content =>
      VObj [("type", VStr tagName);
            ("props", VObj (attributes ++ [("children", to_value content)])%list)]
  end.

(** The event bindings of an attribute map, in the words of section 4.2:
    a key other than [children] that matches [^on.*] case-insensitively and
    has a callable value is a binding, whose event type is the key without
    its [on] prefix, lower-cased. *)
Fixpoint event_bindings (attributes : list (string * value)) : list EventListener :=
  match attributes with
  | [] => []
  | (key, VFun f) :: rest =>
      if negb (String.eqb key "children") && startsWith (toLowerCase key) "on"
      then {| type := toLowerCase (substring_from 2 key); listener := fn_source f |}
             :: event_bindings rest
      else event_bindings rest
  | _ :: rest => event_bindings rest
  end.

(** The elements with at least one event binding, in depth-first,
    left-to-right order: an element before its children, the items of a list
    from left to right. *)
Fixpoint discover (nd : Node) : list discovery :=
  match nd with
  | List items => flat_map discover items
  | Fragment content => discover content
  | Element tagName attributes content =>
      match event_bindings attributes with
      | [] => discover content
      | evs => (tagName, evs) :: discover content
      end
  | _ => []
  end.

(** A node of unrecognized shape, in the words of section 7: neither a
    scalar leaf, a list, a fragment, an element with a string tag, nor a
    component with a callable. *)
Definition unrecognized (element : value) : bool :=
  match element with
  | VUndefined | VNull | VBool _ | VNum _ | VStr _ => false
  | VArr _ => false
  | VSymbol _ | VFun _ => true
  | VObj entries =>
      match lookup "type" entries with
      | Some (VStr _) | Some (VSymbol _) | Some (VFun _) => false
      | _ => true
      end
  end.

(** What [let { type, props = {} } = element] binds, for an element that is
    neither [null] nor [undefined]. *)
Definition element_type (element : value) : value :=
  match element with
  | VObj entries =>
      match lookup "type" entries with Some t => t | None => VUndefined end
  | _ => VUndefined
  end.

Definition element_props (element : value) : value :=
  match element with
  | VObj entries =>
      match lookup "props" entries with
      | Some VUndefined | None => VObj []
      | Some p => p
      end
  | _ => VObj []
  end.

(** The default creation strategy in the words of section 4.1: the callable
    is called with [(props, children)]. *)
Definition createComponent_props_children
  (invoke : callable -> list value -> outcome value) (component props : value)
  : outcome value :=
  c <- get_member props "children" ;;
  call invoke component [props; c].

(* ================================================================== *)
(** ** Sample inputs *)

Definition alert_handler : callable :=
  {| fn_id := 0; fn_source := "() => alert('hello world !')" |}.

(** [<button onClick={fn}>Click me</button>]. *)
Definition button (fn : callable) : value :=
  VObj [("type", VStr "button");
        ("props", VObj [("onClick", VFun fn); ("children", VStr "Click me")])].

Definition button_markup (n : nat) : string :=
  "<button data-identifier=" ++ dq ++ "button_" ++ decimal n ++ dq
    ++ " data-listeners=" ++ dq ++ "click" ++ dq ++ ">Click me</button>".

Definition button_binding (n : nat) (fn : callable) : string :=
  "const button_" ++ decimal n ++ " = document.querySelector('[data-identifier="
    ++ dq ++ "button_" ++ decimal n ++ dq ++ "]');" ++ nl
    ++ "button_" ++ decimal n ++ ".addEventListener(" ++ dq ++ "click" ++ dq ++ ", "
    ++ fn_source fn ++ ");".

(** [<div {...attributes}></div>]. *)
Definition div (attributes : list (string * value)) : value :=
  VObj [("type", VStr "div"); ("props", VObj attributes)].

(** The name an attribute is written under: [className] becomes [class]. *)
Definition written_key (key : string) : string :=
  if String.eqb key "className" then "class" else key.

(** [<Component {...props} />] for the callable [f]. *)
Definition component (f : callable) (props : list (string * value)) : value :=
  VObj [("type", VFun f); ("props", VObj props)].

(** A program whose callables are all
    [(props) => <div onClick={handler}>{props.children}</div>]. *)
Definition wrap_in_div : callable -> list value -> outcome value :=
  fun f args =>
    c <- get_member (nth 0 args VUndefined) "children" ;;
    Ok (VObj [("type", VStr "div");
              ("props", VObj [("onClick", VFun f); ("children", c)])]).

(** A program of two components: the callable 0 returns [<Inner />], where
    [Inner] is the callable 1, and every other callable returns the text
    [leaf]. *)
Definition inner : callable := {| fn_id := 1; fn_source := "() => 'leaf'" |}.
Definition outer : callable := {| fn_id := 0; fn_source := "() => <Inner />" |}.
Definition nested_components : callable -> list value -> outcome value :=
  fun f _ =>
    match fn_id f with
    | 0 => Ok (VObj [("type", VFun inner); ("props", VObj [])])
    | _ => Ok (VStr "leaf")
    end.

(** A program whose callables are all [(props, children) => children]. *)
Definition second_argument : callable -> list value -> outcome value :=
  fun _ args => Ok (nth 1 args VUndefined).

(** A program whose callables are all [(props) => <p>{props.children}</p>]. *)
Definition paragraph_of_children : callable -> list value -> outcome value :=
  fun _ args =>
    c <- get_member (nth 0 args VUndefined) "children" ;;
    Ok (VObj [("type", VStr "p"); ("props", VObj [("children", c)])]).

(* ================================================================== *)
(** ** The builder methods *)

Definition setLang (l : string) (doc : Document) : Document :=
  {| identifier := identifier doc;
     lang := l;
     title := title doc;
     metas := metas doc;
     links := links doc;
     styles := styles doc;
     headerScripts := headerScripts doc;
     bodyScripts := bodyScripts doc;
     noScript := noScript doc;
     listeners := listeners doc;
     createComponent := createComponent doc |}.

Definition setTitle (t : string) (doc : Document) : Document :=
  {| identifier := identifier doc;
     lang := lang doc;
     title := t;
     metas := metas doc;
     links := links doc;
     styles := styles doc;
     headerScripts := headerScripts doc;
     bodyScripts := bodyScripts doc;
     noScript := noScript doc;
     listeners := listeners doc;
     createComponent := createComponent doc |}.

Definition setNoScript (content : string) (doc : Document) : Document :=
  {| identifier := identifier doc;
     lang := lang doc;
     title := title doc;
     metas := metas doc;
     links := links doc;
     styles := styles doc;
     headerScripts := headerScripts doc;
     bodyScripts := bodyScripts doc;
     noScript := content;
     listeners := listeners doc;
     createComponent := createComponent doc |}.

(** [this.#metas.push(fragment)] and its four siblings. *)
Definition push_meta (fragment : string) (doc : Document) : Document :=
  {| identifier := identifier doc;
     lang := lang doc;
     title := title doc;
     metas := (metas doc ++ [fragment])%list;
     links := links doc;
     styles := styles doc;
     headerScripts := headerScripts doc;
     bodyScripts := bodyScripts doc;
     noScript := noScript doc;
     listeners := listeners doc;
     createComponent := createComponent doc |}.

Definition push_link (fragment : string) (doc : Document) : Document :=
  {| identifier := identifier doc;
     lang := lang doc;
     title := title doc;
     metas := metas doc;
     links := (links doc ++ [fragment])%list;
     styles := styles doc;
     headerScripts := headerScripts doc;
     bodyScripts := bodyScripts doc;
     noScript := noScript doc;
     listeners := listeners doc;
     createComponent := createComponent doc |}.

Definition push_style (fragment : string) (doc : Document) : Document :=
  {| identifier := identifier doc;
     lang := lang doc;
     title := title doc;
     metas := metas doc;
     links := links doc;
     styles := (styles doc ++ [fragment])%list;
     headerScripts := headerScripts doc;
     bodyScripts := bodyScripts doc;
     noScript := noScript doc;
     listeners := listeners doc;
     createComponent := createComponent doc |}.

Definition push_headerScript (fragment : string) (doc : Document) : Document :=
  {| identifier := identifier doc;
     lang := lang doc;
     title := title doc;
     metas := metas doc;
     links := links doc;
     styles := styles doc;
     headerScripts := (headerScripts doc ++ [fragment])%list;
     bodyScripts := bodyScripts doc;
     noScript := noScript doc;
     listeners := listeners doc;
     createComponent := createComponent doc |}.

Definition push_bodyScript (fragment : string) (doc : Document) : Document :=
  {| identifier := identifier doc;
     lang := lang doc;
     title := title doc;
     metas := metas doc;
     links := links doc;
     styles := styles doc;
     headerScripts := headerScripts doc;
     bodyScripts := (bodyScripts doc ++ [fragment])%list;
     noScript := noScript doc;
     listeners := listeners doc;
     createComponent := createComponent doc |}.

(** [addMeta], [addLink], [addStyle], [addHeaderScript] and [addBodyScript]
    push the promise of [this.#parseTag(tag, attributes)] and return [this].
    The promise is held as the value it settles to, a [Throw] standing for a
    rejected promise, which [renderToDynamicMarkup] awaits and so rejects on.
    [#parseTag] reads the attributes and writes the counter and the registry
    before its first [await], that is during the call of the method; only the
    rendering of [children] that are elements or arrays is deferred, past the
    calls that follow, so the order of effects here is the source's when the
    [children] are a scalar or absent.
    [attributes] is the object the caller passes, as its entries; [fuel]
    bounds the rendering of its [children]. *)
Definition addMeta (fuel : nat) (attributes : list (string * value)) (doc : Document)
  : outcome Document :=
  '(fragment, doc1) <- parseTag (renderToString fuel) (VStr "meta") (VObj attributes) doc ;;
  Ok (push_meta fragment doc1).

Definition addLink (fuel : nat) (attributes : list (string * value)) (doc : Document)
  : outcome Document :=
  '(fragment, doc1) <- parseTag (renderToString fuel) (VStr "link") (VObj attributes) doc ;;
  Ok (push_link fragment doc1).

(** [addStyle(attributes, content = "")]: a truthy [content] is written into
    the caller's object, [attributes.children = content]; the object as the
    method leaves it is returned beside the Document. *)
Definition addStyle (fuel : nat) (attributes : list (string * value)) (content : value)
           (doc : Document) : outcome (list (string * value) * Document) :=
  let attributes :=
    if truthy content then set_entry "children" content attributes else attributes in
  '(fragment, doc1) <- parseTag (renderToString fuel) (VStr "style") (VObj attributes) doc ;;
  Ok (attributes, push_style fragment doc1).

(** What [addHeaderScript] and [addBodyScript] assign to
    [attributes.children], if anything: a function or a string, wrapped in a
    [DOMContentLoaded] listener when [waitDomContentLoaded] holds. *)
Definition script_children (content : value) (waitDomContentLoaded : bool)
  : option string :=
  match content with
  | VFun f =>
      Some (if waitDomContentLoaded
            then "document.addEventListener('DOMContentLoaded', " ++ fn_source f ++ ");"
            else fn_source f)
  | VStr s =>
      Some (if waitDomContentLoaded
            then "document.addEventListener('DOMContentLoaded', () => {" ++ s ++ "});"
            else s)
  | _ => None
  end.

Definition script_attributes (attributes : list (string * value)) (content : value)
           (waitDomContentLoaded : bool) : list (string * value) :=
  match script_children content waitDomContentLoaded with
  | Some text => set_entry "children" (VStr text) attributes
  | None => attributes
  end.

Definition addHeaderScript (fuel : nat) (attributes : list (string * value))
           (content : value) (waitDomContentLoaded : bool) (doc : Document)
  : outcome (list (string * value) * Document) :=
  let attributes := script_attributes attributes content waitDomContentLoaded in
  '(fragment, doc1) <- parseTag (renderToString fuel) (VStr "script") (VObj attributes) doc ;;
  Ok (attributes, push_headerScript fragment doc1).

Definition addBodyScript (fuel : nat) (attributes : list (string * value))
           (content : value) (waitDomContentLoaded : bool) (doc : Document)
  : outcome (list (string * value) * Document) :=
  let attributes := script_attributes attributes content waitDomContentLoaded in
  '(fragment, doc1) <- parseTag (renderToString fuel) (VStr "script") (VObj attributes) doc ;;
  Ok (attributes, push_bodyScript fragment doc1).

(* ================================================================== *)
(** ** Closed forms *)

(** The attribute values the closed forms below cover: strings, booleans,
    numbers, functions, [undefined] and symbols. *)
Definition simple_value (v : value) : bool :=
  match v with
  | VStr _ | VBool _ | VNum _ | VFun _ | VUndefined | VSymbol _ => true
  | _ => false
  end.

Definition simple_attributes (attributes : list (string * value)) : bool :=
  forallb (fun entry => simple_value (snd entry)) attributes.

(** The text one attribute with a simple value adds to the tag. *)
Definition attribute_text (entry : string * value) : string :=
  let (key, v) := entry in
  if String.eqb key "children" then ""
  else
    match v with
    | VFun f =>
        if startsWith (toLowerCase key) "on" then ""
        else " " ++ written_key key ++ "=" ++ dq ++ fn_source f ++ dq
    | VBool true => " " ++ key
    | VStr s => " " ++ written_key key ++ "=" ++ dq ++ s ++ dq
    | VNum n => " " ++ written_key key ++ "=" ++ dq ++ decimal_Z n ++ dq
    | VUndefined => " " ++ written_key key ++ "=" ++ dq ++ "undefined" ++ dq
    | _ => ""
    end.

Fixpoint attributes_text (attributes : list (string * value)) : string :=
  match attributes with
  | [] => ""
  | entry :: rest => attribute_text entry ++ attributes_text rest
  end.

(** The children an attribute map leaves: those of its last [children]
    entry, [default] without one. *)
Fixpoint children_of (attributes : list (string * value)) (default : value) : value :=
  match attributes with
  | [] => default
  | (key, v) :: rest =>
      children_of rest (if String.eqb key "children" then v else default)
  end.

(** The text of a simple value in the place of a node. *)
Definition child_text (v : value) : string :=
  match v with
  | VStr s => s
  | VNum n => decimal_Z n
  | VUndefined => "undefined"
  | VNull => "null"
  | _ => "<undefined></undefined>"
  end.

(** The opening tag of an element, without its [>], and the Document after
    it: the attribute text, then the identifier and the event types when the
    attributes bind a listener. *)
Definition opening_tag (tag : string) (attributes : list (string * value))
           (doc : Document) : string * Document :=
  register_listeners tag
    {| html := "<" ++ tag ++ attributes_text attributes;
       children := children_of attributes (VStr "");
       eventListeners := event_bindings attributes |}
    doc.

(** The fragment of a tag whose attributes and children are simple. *)
Definition tag_markup (tag : string) (attributes : list (string * value))
           (doc : Document) : string :=
  fst (opening_tag tag attributes doc) ++ ">"
    ++ child_text (children_of attributes (VStr "")) ++ "</" ++ tag ++ ">".

(** The trees of the node model whose attribute values are all simple. *)
Fixpoint plain_node (nd : Node) : bool :=
  match nd with
  | List items => forallb plain_node items
  | Fragment content => plain_node content
  | Element _ attributes content => simple_attributes attributes && plain_node content
  | _ => true
  end.

(** The nesting of a tree, counted as the serializer recurses. *)
Fixpoint depth (nd : Node) : nat :=
  match nd with
  | List items => S (fold_right (fun item m => Nat.max (depth item) m) 0 items)
  | Fragment content => S (depth content)
  | Element _ _ content => S (depth content)
  | Boolean _ => 2
  | _ => 1
  end.

(** The markup of a tree of the node model when the counter stands at
    [counter]: scalars as their text, a boolean as an empty [undefined] tag,
    a list as its items side by side, a fragment as its children when they
    are truthy, an element as its tag around its children. *)
Fixpoint markup (nd : Node) (counter : nat) : string :=
  match nd with
  | Text s => s
  | Number n => decimal_Z n
  | Boolean _ => "<undefined></undefined>"
  | Null => "null"
  | Undefined => "undefined"
  | List items =>
      (fix each (l : list Node) (c : nat) : string :=
         match l with
         | [] => ""
         | item :: rest => markup item c ++ each rest (c + length (discover item))
         end) items counter
  | Fragment content =>
      if truthy (to_value content) then markup content counter else ""
  | Element tagName attributes content =>
      match event_bindings attributes with
      | [] =>
          "<" ++ tagName ++ attributes_text attributes ++ ">"
            ++ markup content counter ++ "</" ++ tagName ++ ">"
      | evs =>
          "<" ++ tagName ++ attributes_text attributes
            ++ " data-identifier=" ++ dq ++ mk_identifier tagName counter ++ dq
            ++ " data-listeners=" ++ dq ++ join ", " (map type evs) ++ dq ++ ">"
            ++ markup content (S counter) ++ "</" ++ tagName ++ ">"
      end
  end.

(** The markup of the items of a list, side by side. *)
Fixpoint markup_each (items : list Node) (counter : nat) : string :=
  match items with
  | [] => ""
  | item :: rest =>
      markup item counter ++ markup_each rest (counter + length (discover item))
  end.

(** The Document with the counter, the registry and the creation callback of
    [doc] and every other field of [dress]. *)
Definition redress (dress doc : Document) : Document :=
  {| identifier := identifier doc;
     lang := lang dress;
     title := title dress;
     metas := metas dress;
     links := links dress;
     styles := styles dress;
     headerScripts := headerScripts dress;
     bodyScripts := bodyScripts dress;
     noScript := noScript dress;
     listeners := listeners doc;
     createComponent := createComponent doc |}.

Definition redress_result (dress : Document) (r : outcome (string * Document))
  : outcome (string * Document) :=
  match r with
  | Ok (out, doc) => Ok (out, redress dress doc)
  | Throw e => Throw e
  | Diverge => Diverge
  end.

(** The result of a loop that started from the text [h]. *)
Definition prefix_result (h : string) (r : outcome (string * Document))
  : outcome (string * Document) :=
  match r with
  | Ok (s, doc) => Ok (h ++ s, doc)
  | Throw e => Throw e
  | Diverge => Diverge
  end.

(** A sample tree: a card with a button, a text and an empty fragment. *)
Definition card : Node :=
  Element "div" [("className", VStr "card"); ("hidden", VBool false)]
    (List [Element "button" [("onClick", VFun alert_handler); ("disabled", VBool true)]
             (Text "Click me");
           Text "x";
           Fragment (Number 0)]).

(** A program whose callables all return the component they are:
    [function F(props) { return <F {...props} /> }]. *)
Definition returns_itself : callable -> list value -> outcome value :=
  fun f args => Ok (VObj [("type", VFun f); ("props", nth 0 args VUndefined)]).

(** The program [let count = 0; const Counter = () => count++] as it stands
    when [Counter] has been called [n] times: the next call returns [n]. *)
Definition counting (n : nat) : callable -> list value -> outcome value :=
  fun _ _ => Ok (VNum (Z.of_nat n)).

(** The tree of the markup that
    [<F><button onClick={h}>Click me</button></F>] renders when [F] wraps its
    children in a [div] with a handler. *)
Definition wrapped_button : Node :=
  Element "div" [("onClick", VFun alert_handler)]
    (Element "button" [("onClick", VFun alert_handler)] (Text "Click me")).

(** Three sibling buttons, as a tree of the node model. *)
Definition three_buttons (f1 f2 f3 : callable) : Node :=
  List [Element "button" [("onClick", VFun f1)] (Text "Click me");
        Element "button" [("onClick", VFun f2)] (Text "Click me");
        Element "button" [("onClick", VFun f3)] (Text "Click me")].

(** The callback [cb] answers as the creation callback of [doc] does. *)
Definition same_answers (cb : value -> value -> outcome value) (doc : Document)
  : Prop :=
  forall component props, cb component props = createComponent doc component props.

(** A render function that returns the same when the creation callback is
    replaced by one that answers the same. *)
Definition follows_callback (cb : value -> value -> outcome value)
           (render : value -> Document -> outcome (string * Document)) : Prop :=
  forall element doc out doc',
    same_answers cb doc ->
    render element doc = Ok (out, doc') ->
    render element (setCreateComponentCallback cb doc)
    = Ok (out, setCreateComponentCallback cb doc').

(** The counter counts the registry. *)
Definition counter_counts_registry (doc : Document) : Prop :=
  identifier doc = length (listeners doc).

(* ================================================================== *)
(** * Properties *)

(** ** Text *)

Lemma append_empty_r (s : string) : s ++ "" = s.
Proof. induction s as [|a s IH]; simpl; [reflexivity | now rewrite IH]. Qed.

Lemma append_assoc (a b c : string) : (a ++ b) ++ c = a ++ b ++ c.
Proof. induction a as [|x a IH]; simpl; [reflexivity | now rewrite IH]. Qed.

Lemma occurs_append (c : ascii) (a b : string) :
  occurs c (a ++ b) = occurs c a || occurs c b.
Proof.
  induction a as [|x a IH]; simpl; [reflexivity|].
  now rewrite IH, orb_assoc.
Qed.

Lemma occurs_middle (c : ascii) (a d : string) :
  occurs c (a ++ String c d) = true.
Proof.
  rewrite occurs_append.
  change (occurs c (String c d)) with (Ascii.eqb c c || occurs c d).
  rewrite Ascii.eqb_refl. apply orb_true_r.
Qed.

(** The text after the last occurrence of a separator is determined by the
    whole text. *)
Lemma last_field_unique (c : ascii) (a1 a2 d1 d2 : string) :
  occurs c d1 = false -> occurs c d2 = false ->
  a1 ++ String c d1 = a2 ++ String c d2 -> d1 = d2.
Proof.
  intros H1 H2. revert a2.
  induction a1 as [|x a1 IH]; intros [|y a2]; simpl; intros E.
  - now inversion E.
  - injection E as <- ->. now rewrite occurs_middle in H1.
  - injection E as -> <-. now rewrite occurs_middle in H2.
  - injection E as _ E. eauto.
Qed.

Lemma digits_without_underscore (d : Decimal.uint) :
  occurs "_" (NilEmpty.string_of_uint d) = false.
Proof. induction d; simpl; auto. Qed.

Lemma decimal_inj (n m : nat) : decimal n = decimal m -> n = m.
Proof.
  unfold decimal. intros E.
  apply Unsigned.to_uint_inj.
  assert (Some (Nat.to_uint n) = Some (Nat.to_uint m)) as S.
  { rewrite <- !NilEmpty.usu. now rewrite E. }
  now inversion S.
Qed.

(** Two identifiers minted at different counter values differ, whatever
    their tags. *)
Lemma mk_identifier_counter (t1 t2 : string) (n m : nat) :
  mk_identifier t1 n = mk_identifier t2 m -> n = m.
Proof.
  unfold mk_identifier. intros E.
  apply decimal_inj.
  apply (last_field_unique "_" t1 t2);
    [apply digits_without_underscore | apply digits_without_underscore | exact E].
Qed.

(** ** The registry *)

Lemma registry_from_app (c : nat) (l1 l2 : list discovery) :
  registry_from c (l1 ++ l2)%list
  = (registry_from c l1 ++ registry_from (c + length l1) l2)%list.
Proof.
  revert c. induction l1 as [|[tag evs] l1 IH]; intros c; simpl.
  - now rewrite Nat.add_0_r.
  - rewrite IH. now rewrite Nat.add_succ_r.
Qed.

Lemma registry_from_length (c : nat) (log : list discovery) :
  length (registry_from c log) = length log.
Proof. revert c. induction log as [|[tag evs] log IH]; intros c; simpl; auto. Qed.

Lemma identifiers_from_spec (c : nat) (log : list discovery) (id : string) :
  In id (identifiers_from c log) ->
  exists tag n, id = mk_identifier tag n /\ c <= n.
Proof.
  revert c. induction log as [|[tag evs] log IH]; intros c; simpl.
  - intros [].
  - intros [<- | H].
    + exists tag, c. split; [reflexivity | lia].
    + destruct (IH _ H) as (t & n & -> & Hn). exists t, n. split; [reflexivity | lia].
Qed.

Lemma identifiers_from_NoDup (c : nat) (log : list discovery) :
  NoDup (identifiers_from c log).
Proof.
  revert c. induction log as [|[tag evs] log IH]; intros c; simpl.
  - constructor.
  - constructor; [|apply IH].
    intros H. apply identifiers_from_spec in H as (t & n & E & Hn).
    apply mk_identifier_counter in E. lia.
Qed.

(** ** Outcomes *)

Lemma bind_Ok {A B : Type} (m : outcome A) (k : A -> outcome B) (b : B) :
  bind m k = Ok b -> exists a, m = Ok a /\ k a = Ok b.
Proof. destruct m as [a| |]; simpl; intros H; [eauto | discriminate | discriminate]. Qed.

(** Splits a returning sequence [x <- m ;; k] into its two returning parts. *)
Ltac bind_inv H :=
  let x := fresh "x" in
  let Hx := fresh "Hx" in
  apply bind_Ok in H as (x & Hx & H).

(** The same, and the first part is replayed in the goal. *)
Ltac bind_fwd H :=
  let x := fresh "x" in
  let Hx := fresh "Hx" in
  apply bind_Ok in H as (x & Hx & H); rewrite Hx; cbn [bind].

(** ** The render pass only advances the counter and extends the registry *)

Lemma extends_refl (doc : Document) : extends doc doc [].
Proof.
  split; [|constructor].
  destruct doc; unfold with_registry; simpl.
  now rewrite Nat.add_0_r, app_nil_r.
Qed.

Lemma extends_trans (d1 d2 d3 : Document) (l1 l2 : list discovery) :
  extends d1 d2 l1 -> extends d2 d3 l2 -> extends d1 d3 (l1 ++ l2)%list.
Proof.
  intros [E1 F1] [E2 F2]. split; [|now apply Forall_app].
  rewrite E2, E1. unfold with_registry; simpl.
  rewrite length_app, registry_from_app, Nat.add_assoc, <- app_assoc.
  reflexivity.
Qed.

Lemma register_listeners_extends (tag : string) (acc : tag_locals) (doc : Document) :
  extends doc (snd (register_listeners tag acc doc))
    (match eventListeners acc with [] => [] | evs => [(tag, evs)] end).
Proof.
  unfold register_listeners.
  destruct (eventListeners acc) as [|e evs] eqn:E; simpl.
  - apply extends_refl.
  - split.
    + now rewrite Nat.add_1_r.
    + constructor; [simpl; discriminate | constructor].
Qed.

Section Frame.

Variable render : value -> Document -> outcome (string * Document).
Hypothesis render_logs : logs render.

Lemma parseTag_logs (type attributes : value) : 
  forall doc out doc',
    parseTag render type attributes doc = Ok (out, doc') ->
    exists log, extends doc doc' log.
Proof.
  intros doc out doc' H. unfold parseTag in H.
  bind_inv H. bind_inv H. bind_inv H.
  pose proof (register_listeners_extends x x1 doc) as R.
  destruct (register_listeners x x1 doc) as [h doc1]. simpl in R.
  bind_inv H. destruct x2 as [inner doc2]. injection H as _ <-.
  apply render_logs in Hx2 as [log2 L2].
  eexists. eapply extends_trans; eassumption.
Qed.

Lemma render_each_logs (items : list value) :
  forall h doc out doc',
    render_each render items h doc = Ok (out, doc') ->
    exists log, extends doc doc' log.
Proof.
  induction items as [|el rest IH]; intros h doc out doc' H; simpl in H.
  - injection H as _ <-. eexists. apply extends_refl.
  - bind_inv H. destruct x as [s doc1].
    apply render_logs in Hx as [l1 L1].
    apply IH in H as [l2 L2].
    eexists. eapply extends_trans; eassumption.
Qed.

Lemma render_element_logs (element : value) :
  forall doc out doc',
    render_element render element doc = Ok (out, doc') ->
    exists log, extends doc doc' log.
Proof.
  intros doc out doc' H. unfold render_element in H.
  bind_inv H. bind_inv H.
  set (props := match x0 with VUndefined => VObj [] | _ => x0 end) in H.
  destruct (typeof x);
    try (apply parseTag_logs in H; exact H).
  - (* a symbol: the children alone *)
    bind_inv H. destruct (truthy x1).
    + bind_inv H. destruct x2 as [s doc1]. injection H as _ <-.
      apply render_logs in Hx2. exact Hx2.
    + injection H as _ <-. eexists. apply extends_refl.
  - (* a function: the children, then what the component returns *)
    bind_inv H. destruct (truthy x1).
    + bind_inv H. destruct x2 as [s doc1]. bind_inv H.
      apply render_logs in Hx2 as [l1 L1].
      apply render_logs in H as [l2 L2].
      eexists. eapply extends_trans; eassumption.
    + bind_inv H. apply render_logs in H. exact H.
Qed.

End Frame.

Lemma renderToString_logs (fuel : nat) : logs (renderToString fuel).
Proof.
  induction fuel as [|n IH]; intros element doc out doc' H; simpl in H.
  - discriminate.
  - destruct element;
      try (injection H as _ <-; eexists; apply extends_refl);
      try (apply (render_element_logs _ IH) in H; exact H).
    apply (render_each_logs _ IH) in H. exact H.
Qed.

(** ** A returning render does not depend on the bound of the recursion *)

Section Monotone.

Variables r1 r2 : value -> Document -> outcome (string * Document).
Hypothesis r1_r2 : refines r1 r2.

Lemma parseTag_refines (type attributes : value) (doc : Document)
      (res : string * Document) :
  parseTag r1 type attributes doc = Ok res ->
  parseTag r2 type attributes doc = Ok res.
Proof.
  unfold parseTag. intros H.
  bind_fwd H. bind_fwd H. bind_fwd H.
  destruct (register_listeners x x1 doc) as [h doc1].
  bind_inv H. apply r1_r2 in Hx2. rewrite Hx2. exact H.
Qed.

Lemma render_each_refines (items : list value) :
  forall h doc res,
    render_each r1 items h doc = Ok res -> render_each r2 items h doc = Ok res.
Proof.
  induction items as [|el rest IH]; intros h doc res H; simpl in *.
  - exact H.
  - bind_inv H. apply r1_r2 in Hx. rewrite Hx. cbn [bind].
    destruct x as [s doc1]. now apply IH.
Qed.

Lemma render_element_refines (element : value) (doc : Document)
      (res : string * Document) :
  render_element r1 element doc = Ok res ->
  render_element r2 element doc = Ok res.
Proof.
  unfold render_element. intros H.
  bind_fwd H. bind_fwd H.
  destruct (typeof x); try (now apply parseTag_refines).
  - bind_fwd H.
    destruct (truthy x1); [|exact H].
    bind_inv H. apply r1_r2 in Hx2. rewrite Hx2. exact H.
  - bind_fwd H.
    destruct (truthy x1).
    + bind_inv H. apply r1_r2 in Hx2. rewrite Hx2. cbn [bind].
      destruct x2 as [s doc1].
      bind_fwd H. now apply r1_r2.
    + bind_fwd H. now apply r1_r2.
Qed.

End Monotone.

Lemma renderToString_fuel (n : nat) :
  forall m, n <= m -> refines (renderToString n) (renderToString m).
Proof.
  induction n as [|n IH]; intros m Hm element doc res H; simpl in H.
  - discriminate.
  - destruct m as [|m]; [lia|].
    assert (refines (renderToString n) (renderToString m)) as R
        by (apply IH; lia).
    simpl. destruct element; try exact H.
    + now apply (render_element_refines _ _ R).
    + now apply (render_element_refines _ _ R).
    + now apply (render_element_refines _ _ R).
    + now apply (render_each_refines _ _ R).
    + now apply (render_element_refines _ _ R).
Qed.

(** Two returning renders of one element from one document agree, whatever
    their bounds. *)
Lemma renderToString_functional (n m : nat) (element : value) (doc : Document)
      (r1 r2 : string * Document) :
  renderToString n element doc = Ok r1 ->
  renderToString m element doc = Ok r2 ->
  r1 = r2.
Proof.
  intros H1 H2.
  destruct (Nat.le_ge_cases n m) as [L|L].
  - apply (renderToString_fuel _ _ L) in H1. congruence.
  - apply (renderToString_fuel _ _ L) in H2. congruence.
Qed.

(** ** The attribute loop and the event bindings of the specification *)

Lemma attribute_step_listeners (acc acc' : tag_locals) (key : string) (v : value) :
  attribute_step acc (key, v) = Ok acc' ->
  eventListeners acc' = (eventListeners acc ++ event_bindings [(key, v)])%list.
Proof.
  unfold attribute_step. simpl.
  destruct (String.eqb key "children") eqn:K; simpl.
  - intros H. injection H as <-. simpl.
    destruct v; now rewrite app_nil_r.
  - destruct (startsWith (toLowerCase key) "on") eqn:P; simpl.
    + destruct v; simpl; intros H;
        repeat match type of H with
               | context [if ?b then _ else _] => destruct b
               | bind _ _ = Ok _ => bind_inv H
               | match ?b with true => _ | false => _ end = _ => destruct b
               end;
        try discriminate H;
        try (injection H as <-; simpl; now rewrite ?app_nil_r).
    + destruct v; simpl; intros H;
        repeat match type of H with
               | context [if ?b then _ else _] => destruct b
               | bind _ _ = Ok _ => bind_inv H
               | match ?b with true => _ | false => _ end = _ => destruct b
               end;
        try discriminate H;
        try (injection H as <-; simpl; now rewrite ?app_nil_r).
Qed.

Lemma event_bindings_cons (entry : string * value) (rest : list (string * value)) :
  event_bindings (entry :: rest) = (event_bindings [entry] ++ event_bindings rest)%list.
Proof.
  destruct entry as [key v]. simpl.
  destruct v; try reflexivity.
  destruct (negb (String.eqb key "children") && startsWith (toLowerCase key) "on");
    reflexivity.
Qed.

Lemma forEach_entry_listeners (attributes : list (string * value)) :
  forall acc acc',
    forEach_entry attributes acc = Ok acc' ->
    eventListeners acc' = (eventListeners acc ++ event_bindings attributes)%list.
Proof.
  induction attributes as [|[key v] rest IH]; intros acc acc' H; simpl in H.
  - injection H as <-. now rewrite app_nil_r.
  - bind_inv H. apply attribute_step_listeners in Hx. apply IH in H.
    rewrite event_bindings_cons, H, Hx. now rewrite app_assoc.
Qed.

Lemma forEach_entry_app (l1 l2 : list (string * value)) (acc : tag_locals) :
  forEach_entry (l1 ++ l2)%list acc
  = (acc1 <- forEach_entry l1 acc ;; forEach_entry l2 acc1).
Proof.
  revert acc. induction l1 as [|e l1 IH]; intros acc; simpl.
  - reflexivity.
  - destruct (attribute_step acc e) as [a| |]; simpl; auto.
Qed.

(** The attribute map of an element of the node model: its event bindings
    are those of the specification, its children the node's. *)
Lemma forEach_entry_element (attributes : list (string * value)) (c : value)
      (acc acc' : tag_locals) :
  forEach_entry (attributes ++ [("children", c)])%list acc = Ok acc' ->
  children acc' = c
  /\ eventListeners acc' = (eventListeners acc ++ event_bindings attributes)%list.
Proof.
  rewrite forEach_entry_app. intros H. bind_inv H.
  apply forEach_entry_listeners in Hx.
  simpl in H. injection H as <-. simpl. auto.
Qed.

(** ** The identified elements of a tree are those the specification discovers *)

Lemma falsy_discover (nd : Node) :
  truthy (to_value nd) = false -> discover nd = [].
Proof. destruct nd; simpl; intros H; try reflexivity; discriminate. Qed.

Lemma renderToString_discover (fuel : nat) :
  forall nd doc out doc',
    renderToString fuel (to_value nd) doc = Ok (out, doc') ->
    extends doc doc' (discover nd).
Proof.
  induction fuel as [|n IH]; intros nd doc out doc' H; [discriminate|].
  destruct nd as [s|k|b| | |items|content|tagName attributes content];
    cbn [to_value renderToString] in H;
    try (injection H as _ <-; apply extends_refl).
  - (* a boolean takes the element path, with no attribute *)
    cbn in H. bind_inv H. destruct x as [inner doc2]. injection H as _ <-.
    apply (IH (Text "")) in Hx. exact Hx.
  - (* a list *)
    cbn [discover].
    assert (forall h d o d',
               render_each (renderToString n) (map to_value items) h d = Ok (o, d') ->
               extends d d' (flat_map discover items)) as Each.
    { clear H. induction items as [|el rest IHr]; intros h d o d' H; simpl in H.
      - injection H as _ <-. apply extends_refl.
      - bind_inv H. destruct x as [s d1]. simpl.
        eapply extends_trans; [eapply IH; exact Hx | eapply IHr; exact H]. }
    eapply Each; exact H.
  - (* a fragment *)
    cbn in H. destruct (truthy (to_value content)) eqn:T.
    + bind_inv H. destruct x as [s d1]. injection H as _ <-.
      apply (IH content) in Hx. exact Hx.
    + injection H as _ <-. cbn [discover].
      rewrite (falsy_discover _ T). apply extends_refl.
  - (* an element *)
    cbn in H. unfold parseTag in H. cbn [to_str object_entries own_entries bind] in H.
    bind_inv H. apply forEach_entry_element in Hx as [C E]. simpl in E.
    pose proof (register_listeners_extends tagName x doc) as R.
    destruct (register_listeners tagName x doc) as [h doc1]. simpl in R.
    bind_inv H. destruct x0 as [inner doc2]. injection H as _ <-.
    rewrite C in Hx. apply IH in Hx.
    cbn [discover]. rewrite <- E.
    destruct (eventListeners x) as [|e evs].
    + apply (extends_trans _ _ _ [] _ R Hx).
    + apply (extends_trans _ _ _ [_] _ R Hx).
Qed.

(** ** The tag text does not depend on the event listeners *)

Lemma attribute_step_relisten (acc acc' : tag_locals) (key : string) (v : value) :
  attribute_step acc (key, v) = Ok acc' ->
  forall evs,
    attribute_step (set_listeners acc evs) (key, v)
    = Ok (set_listeners acc' (evs ++ event_bindings [(key, v)])%list).
Proof.
  unfold attribute_step, set_listeners, set_html. simpl.
  destruct (String.eqb key "children") eqn:K; simpl.
  - intros H evs. injection H as <-. simpl.
    destruct v; now rewrite app_nil_r.
  - destruct (startsWith (toLowerCase key) "on") eqn:P; simpl.
    + destruct v; simpl; intros H evs;
        repeat match type of H with
               | context [if ?b then _ else _] => destruct b
               | bind _ _ = Ok _ => bind_fwd H
               | match ?b with true => _ | false => _ end = _ => destruct b
               end;
        try discriminate H;
        try (injection H as <-; simpl; now rewrite ?app_nil_r).
    + destruct v; simpl; intros H evs;
        repeat match type of H with
               | context [if ?b then _ else _] => destruct b
               | bind _ _ = Ok _ => bind_fwd H
               | match ?b with true => _ | false => _ end = _ => destruct b
               end;
        try discriminate H;
        try (injection H as <-; simpl; now rewrite ?app_nil_r).
Qed.

Lemma forEach_entry_relisten (attributes : list (string * value)) :
  forall acc acc',
    forEach_entry attributes acc = Ok acc' ->
    forall evs,
      forEach_entry attributes (set_listeners acc evs)
      = Ok (set_listeners acc' (evs ++ event_bindings attributes)%list).
Proof.
  induction attributes as [|[key v] rest IH]; intros acc acc' H evs; simpl in H.
  - injection H as <-. simpl. now rewrite app_nil_r.
  - bind_inv H. cbn [forEach_entry].
    rewrite (attribute_step_relisten _ _ _ _ Hx). cbn [bind].
    rewrite (IH _ _ H). rewrite (event_bindings_cons (key, v) rest).
    now rewrite app_assoc.
Qed.

Lemma set_listeners_same (acc : tag_locals) :
  set_listeners acc (eventListeners acc) = acc.
Proof. now destruct acc. Qed.

Lemma on_prefix_two_characters (key : string) :
  startsWith (toLowerCase key) "on" = true ->
  exists a b rest, key = String a (String b rest).
Proof.
  unfold startsWith.
  destruct key as [|a [|b rest]]; cbn [toLowerCase prefix].
  - discriminate.
  - destruct (ascii_dec "o" (lower_ascii a)); discriminate.
  - eauto.
Qed.

(** ** The tag text only grows *)

Lemma attribute_step_html (acc acc' : tag_locals) (entry : string * value) :
  attribute_step acc entry = Ok acc' ->
  exists suffix, html acc' = html acc ++ suffix.
Proof.
  destruct entry as [key v]. unfold attribute_step, set_html.
  intros H.
  repeat match type of H with
         | context [if ?b then _ else _] => destruct b
         | bind _ _ = Ok _ => bind_inv H
         | match ?b with _ => _ end = _ => destruct b
         end;
    try discriminate H;
    injection H as <-; simpl;
    try (exists ""; now rewrite append_empty_r);
    eexists; reflexivity.
Qed.

Lemma forEach_entry_html (entries : list (string * value)) :
  forall acc acc',
    forEach_entry entries acc = Ok acc' ->
    exists suffix, html acc' = html acc ++ suffix.
Proof.
  induction entries as [|e rest IH]; intros acc acc' H; simpl in H.
  - injection H as <-. exists "". now rewrite append_empty_r.
  - bind_inv H. apply attribute_step_html in Hx as [s1 E1].
    apply IH in H as [s2 E2]. exists (s1 ++ s2).
    now rewrite E2, E1, append_assoc.
Qed.

Lemma register_listeners_html (tag : string) (acc : tag_locals) (doc : Document) :
  exists suffix, fst (register_listeners tag acc doc) = html acc ++ suffix.
Proof.
  unfold register_listeners. destruct (eventListeners acc); simpl.
  - exists "". now rewrite append_empty_r.
  - eexists. reflexivity.
Qed.

(** Whatever [#parseTag] returns is the opening tag, then the rest, then the
    closing tag. *)
Lemma parseTag_shape (render : value -> Document -> outcome (string * Document))
      (type attributes : value) (doc : Document) (out : string) (doc' : Document) :
  parseTag render type attributes doc = Ok (out, doc') ->
  exists tag rest,
    to_str type = Ok tag /\ out = "<" ++ tag ++ rest ++ "</" ++ tag ++ ">".
Proof.
  unfold parseTag. intros H.
  bind_inv H. bind_inv H. bind_inv H.
  apply forEach_entry_html in Hx1 as [s1 E1]. simpl in E1.
  destruct (register_listeners_html x x1 doc) as [s2 E2].
  destruct (register_listeners x x1 doc) as [h doc1]. simpl in E2.
  bind_inv H. destruct x2 as [inner doc2]. injection H as <- _.
  exists x, (s1 ++ s2 ++ ">" ++ inner). split; [assumption|].
  rewrite E2, E1. simpl. rewrite !append_assoc. reflexivity.
Qed.

(* ================================================================== *)
(** * The statements of the specification *)

(** C2. For a fresh Document, the element
    [{type: "button", props: {onClick: fn, children: "Click me"}}] renders
    exactly [<button data-identifier="button_0" data-listeners="click">Click
    me</button>], and exactly one entry is appended to the listener registry:
    the binding of identifier [button_0], event type [click] and the source
    text of [fn]. *)
Theorem button_renders_with_identifier_and_binding :
  forall invoke fn fuel,
    identifier (new_Document invoke) = 0
    /\ listeners (new_Document invoke) = []
    /\ exists doc',
        renderToString (S (S fuel)) (button fn) (new_Document invoke)
        = Ok ("<button data-identifier=" ++ dq ++ "button_0" ++ dq
                ++ " data-listeners=" ++ dq ++ "click" ++ dq ++ ">Click me</button>",
              doc')
        /\ identifier doc' = 1
        /\ listeners doc'
           = ["const button_0 = document.querySelector('[data-identifier="
                ++ dq ++ "button_0" ++ dq ++ "]');" ++ nl
                ++ "button_0.addEventListener(" ++ dq ++ "click" ++ dq ++ ", "
                ++ fn_source fn ++ ");"].
Proof.
  intros invoke fn fuel. split; [reflexivity|]. split; [reflexivity|].
  eexists. split; [reflexivity|]. split; reflexivity.
Qed.

(** C3. An attribute whose key is not [children], starts case-insensitively
    with [on] and has a function for value is extracted as an event binding:
    its event type is the key without its first two characters, lower-cased,
    its listener the source text of the function; and the attribute adds
    nothing to the tag text, which is the tag text of the same attributes
    without it. *)
Theorem handler_attribute_becomes_binding :
  forall key f,
    key <> "children" ->
    startsWith (toLowerCase key) "on" = true ->
    exists a b rest,
      key = String a (String b rest)
      /\ (forall acc,
             attribute_step acc (key, VFun f)
             = Ok (set_listeners acc
                     (eventListeners acc
                        ++ [{| type := toLowerCase rest; listener := fn_source f |}])%list))
      /\ (forall before after acc0 acc,
             forEach_entry (before ++ (key, VFun f) :: after)%list acc0 = Ok acc ->
             exists without,
               forEach_entry (before ++ after)%list acc0 = Ok without
               /\ html acc = html without
               /\ children acc = children without
               /\ eventListeners acc
                  = (eventListeners acc0 ++ event_bindings before
                       ++ {| type := toLowerCase rest; listener := fn_source f |}
                       :: event_bindings after)%list).
Proof.
  intros key f K P.
  destruct (on_prefix_two_characters key P) as (a & b & rest & ->).
  exists a, b, rest. split; [reflexivity|].
  apply String.eqb_neq in K.
  assert (forall acc,
             attribute_step acc (String a (String b rest), VFun f)
             = Ok (set_listeners acc
                     (eventListeners acc
                        ++ [{| type := toLowerCase rest; listener := fn_source f |}])%list))
    as Step.
  { intros acc. unfold attribute_step. rewrite K, P. reflexivity. }
  split; [exact Step|].
  intros before after acc0 acc H.
  rewrite forEach_entry_app in H. bind_inv H.
  cbn [forEach_entry] in H. rewrite Step in H. cbn [bind] in H.
  pose proof (forEach_entry_listeners _ _ _ Hx) as E1.
  pose proof (forEach_entry_listeners _ _ _ H) as E2. simpl in E2.
  apply forEach_entry_relisten with (evs := eventListeners x) in H.
  unfold set_listeners at 1 in H. simpl in H.
  change {| html := html x; children := children x; eventListeners := eventListeners x |}
    with (set_listeners x (eventListeners x)) in H.
  rewrite set_listeners_same in H.
  eexists. rewrite forEach_entry_app, Hx. cbn [bind]. split; [exact H|].
  simpl. repeat split.
  rewrite E2, E1, <- !app_assoc. reflexivity.
Qed.

Lemma handler_attribute_becomes_binding_witness :
  exists a b rest,
    "onClick" = String a (String b rest)
    /\ (forall acc,
           attribute_step acc ("onClick", VFun alert_handler)
           = Ok (set_listeners acc
                   (eventListeners acc
                      ++ [{| type := toLowerCase rest;
                             listener := fn_source alert_handler |}])%list))
    /\ (forall before after acc0 acc,
           forEach_entry (before ++ ("onClick", VFun alert_handler) :: after)%list acc0
           = Ok acc ->
           exists without,
             forEach_entry (before ++ after)%list acc0 = Ok without
             /\ html acc = html without
             /\ children acc = children without
             /\ eventListeners acc
                = (eventListeners acc0 ++ event_bindings before
                     ++ {| type := toLowerCase rest;
                           listener := fn_source alert_handler |}
                     :: event_bindings after)%list).
Proof.
  apply (handler_attribute_becomes_binding "onClick" alert_handler).
  - discriminate.
  - reflexivity.
Defined.

(** C4, as stated, fails: an attribute whose value is [null] or [undefined]
    is not omitted.  [<div hidden={null}>] renders [hidden="null"] and
    [<div hidden={undefined}>] renders [hidden="undefined"]. *)
Lemma null_attribute_is_written :
  renderToString 2 (div [("hidden", VNull)]) (new_Document second_argument)
  = Ok ("<div hidden=" ++ dq ++ "null" ++ dq ++ "></div>",
        new_Document second_argument)
  /\ renderToString 2 (div [("hidden", VUndefined)]) (new_Document second_argument)
     = Ok ("<div hidden=" ++ dq ++ "undefined" ++ dq ++ "></div>",
           new_Document second_argument)
  /\ "<div hidden=" ++ dq ++ "null" ++ dq ++ "></div>" <> "<div></div>"
  /\ "<div hidden=" ++ dq ++ "undefined" ++ dq ++ "></div>" <> "<div></div>".
Proof. repeat split; try reflexivity; discriminate. Qed.

(** C4, amended.  For an attribute other than [children]: the value [true]
    writes the bare attribute name, with no [="..."] part; the value [false]
    writes nothing, and leaves the locals as they were.  The values [null]
    and [undefined] are not omitted: they are written as [key="null"] (for a
    key that is not [style]) and [key="undefined"]. *)
Theorem boolean_attribute_bare_or_omitted :
  forall key acc,
    key <> "children" ->
    attribute_step acc (key, VBool true) = Ok (set_html acc (html acc ++ " " ++ key))
    /\ attribute_step acc (key, VBool false) = Ok acc
    /\ attribute_step acc (key, VUndefined)
       = Ok (set_html acc
               (html acc ++ " " ++ written_key key ++ "=" ++ dq ++ "undefined" ++ dq))
    /\ (toLowerCase key <> "style" ->
        attribute_step acc (key, VNull)
        = Ok (set_html acc
                (html acc ++ " " ++ written_key key ++ "=" ++ dq ++ "null" ++ dq))).
Proof.
  intros key acc K. apply String.eqb_neq in K.
  unfold attribute_step, written_key. rewrite K.
  cbn [is_function typeof js_type_eqb negb].
  rewrite !andb_false_r.
  repeat split.
  intros S. apply String.eqb_neq in S. rewrite S. reflexivity.
Qed.

Lemma boolean_attribute_bare_or_omitted_witness :
  attribute_step {| html := "<input"; children := VStr ""; eventListeners := [] |}
    ("disabled", VBool true)
  = Ok {| html := "<input disabled"; children := VStr ""; eventListeners := [] |}
  /\ attribute_step {| html := "<input"; children := VStr ""; eventListeners := [] |}
       ("disabled", VBool false)
     = Ok {| html := "<input"; children := VStr ""; eventListeners := [] |}
  /\ attribute_step {| html := "<input"; children := VStr ""; eventListeners := [] |}
       ("disabled", VUndefined)
     = Ok (set_html {| html := "<input"; children := VStr ""; eventListeners := [] |}
             ("<input" ++ " " ++ written_key "disabled" ++ "=" ++ dq ++ "undefined" ++ dq))
  /\ (toLowerCase "disabled" <> "style" ->
      attribute_step {| html := "<input"; children := VStr ""; eventListeners := [] |}
        ("disabled", VNull)
      = Ok (set_html {| html := "<input"; children := VStr ""; eventListeners := [] |}
              ("<input" ++ " " ++ written_key "disabled" ++ "=" ++ dq ++ "null" ++ dq))).
Proof.
  apply (boolean_attribute_bare_or_omitted "disabled"
           {| html := "<input"; children := VStr ""; eventListeners := [] |}).
  discriminate.
Defined.

(** C5, at the node the source misses.  A string, a number, [null] and
    [undefined] render as their literal text; a boolean does not: it has no
    case of its own, takes the element path with an undefined [type], and
    renders [<undefined></undefined>]. *)
Theorem boolean_node_renders_undefined_tag :
  forall fuel doc,
    (forall s, renderToString (S fuel) (VStr s) doc = Ok (s, doc))
    /\ (forall k, renderToString (S fuel) (VNum k) doc = Ok (decimal_Z k, doc))
    /\ decimal_Z 42 = "42"
    /\ renderToString (S fuel) VNull doc = Ok ("null", doc)
    /\ renderToString (S fuel) VUndefined doc = Ok ("undefined", doc)
    /\ (forall b,
           renderToString (S (S fuel)) (VBool b) doc
           = Ok ("<undefined></undefined>", doc)).
Proof. intros fuel doc. repeat split. Qed.

(** C9. An attribute whose key is [style], in any letter case, and whose
    value is a style map is written as the one attribute
    [style="prop:value;prop:value"]: every entry of the map, in the order of
    the map, joined with [;], the property names as they are.  So
    [{color: "red", fontWeight: "bold"}] gives
    [style="color:red;fontWeight:bold"]. *)
Theorem style_map_is_joined :
  forall key acc (styles : list (string * string)),
    toLowerCase key = "style" ->
    attribute_step acc (key, VObj (map (fun e => (fst e, VStr (snd e))) styles))
    = Ok (set_html acc
            (html acc ++ " style=" ++ dq
               ++ join ";" (map (fun e => fst e ++ ":" ++ snd e) styles) ++ dq))
    /\ attribute_step {| html := "<div"; children := VStr ""; eventListeners := [] |}
         ("style", VObj [("color", VStr "red"); ("fontWeight", VStr "bold")])
       = Ok {| html := "<div style=" ++ dq ++ "color:red;fontWeight:bold" ++ dq;
               children := VStr "";
               eventListeners := [] |}.
Proof.
  intros key acc styles S. split; [|reflexivity].
  unfold attribute_step.
  assert (String.eqb key "children" = false) as K.
  { apply String.eqb_neq. intros ->. discriminate S. }
  rewrite K, S.
  cbn [is_function typeof js_type_eqb]. rewrite andb_false_r.
  cbn [String.eqb Ascii.eqb Bool.eqb andb object_entries own_entries bind].
  assert (mapM style_entry (map (fun e => (fst e, VStr (snd e))) styles)
          = Ok (map (fun e => fst e ++ ":" ++ snd e) styles)) as M.
  { induction styles as [|[k v] rest IH]; simpl; [reflexivity|].
    rewrite IH. reflexivity. }
  simpl. rewrite M. reflexivity.
Qed.

Lemma style_map_is_joined_witness :
  attribute_step {| html := "<p"; children := VStr ""; eventListeners := [] |}
    ("STYLE", VObj (map (fun e => (fst e, VStr (snd e))) [("margin", "0")]))
  = Ok (set_html {| html := "<p"; children := VStr ""; eventListeners := [] |}
          ("<p" ++ " style=" ++ dq
             ++ join ";" (map (fun e => fst e ++ ":" ++ snd e) [("margin", "0")]) ++ dq))
  /\ attribute_step {| html := "<div"; children := VStr ""; eventListeners := [] |}
       ("style", VObj [("color", VStr "red"); ("fontWeight", VStr "bold")])
     = Ok {| html := "<div style=" ++ dq ++ "color:red;fontWeight:bold" ++ dq;
             children := VStr "";
             eventListeners := [] |}.
Proof.
  apply (style_map_is_joined "STYLE"
           {| html := "<p"; children := VStr ""; eventListeners := [] |}
           [("margin", "0")]).
  reflexivity.
Defined.

(** C6, as stated, fails: the callable is not called with the children as a
    second argument.  With callables that return their second argument,
    [<F>hi</F>] renders [undefined]; called with
    [(props, children)] it would render [hi]. *)
Lemma component_gets_no_second_argument :
  renderToString 3 (component alert_handler [("children", VStr "hi")])
    (new_Document second_argument)
  = Ok ("undefined", new_Document second_argument)
  /\ renderToString 3 (component alert_handler [("children", VStr "hi")])
       (setCreateComponentCallback (createComponent_props_children second_argument)
          (new_Document second_argument))
     = Ok ("hi",
           setCreateComponentCallback (createComponent_props_children second_argument)
             (new_Document second_argument)).
Proof. split; reflexivity. Qed.

(** C6, amended.  When no custom creation callback has been set, resolving a
    function-backed component node calls the callable with one argument, the
    props, in which truthy children have first been replaced by their
    rendered markup; the node the callable returns is then itself rendered,
    by the same recursion, so a component that returns a component is
    resolved down to the markup of the innermost one. *)
Theorem component_called_with_props_only :
  (forall invoke f props fuel doc,
      createComponent doc = createComponent (new_Document invoke) ->
      renderToString (S fuel) (component f props) doc
      = (let c := match lookup "children" props with
                  | Some c => c
                  | None => VUndefined
                  end in
         if truthy c then
           '(s, doc1) <- renderToString fuel c doc ;;
           node <- invoke f [VObj (set_entry "children" (VStr s) props)] ;;
           renderToString fuel node doc1
         else
           node <- invoke f [VObj props] ;;
           renderToString fuel node doc))
  /\ (forall fuel,
         renderToString (S (S (S fuel))) (component outer [])
           (new_Document nested_components)
         = Ok ("leaf", new_Document nested_components)).
Proof.
  split; [|reflexivity].
  intros invoke f props fuel doc D.
  cbn [renderToString component render_element get_member lookup String.eqb
       Ascii.eqb Bool.eqb bind typeof].
  cbv zeta.
  assert (match lookup "children" props with
          | Some x => Ok x
          | None => Ok VUndefined
          end
          = Ok (match lookup "children" props with
                | Some c => c
                | None => VUndefined
                end)) as -> by (destruct (lookup "children" props); reflexivity).
  cbn [bind].
  destruct (truthy _).
  - destruct (renderToString fuel _ doc) as [[s doc1]| |] eqn:R; cbn [bind];
      try reflexivity.
    apply renderToString_logs in R as [log [E _]].
    assert (createComponent doc1 = createComponent doc) as -> by (now rewrite E).
    rewrite D. reflexivity.
  - rewrite D. reflexivity.
Qed.

Lemma component_called_with_props_only_witness :
  renderToString 3 (component alert_handler [("children", VStr "hi")])
    (new_Document paragraph_of_children)
  = (let c := match lookup "children" [("children", VStr "hi")] with
              | Some c => c
              | None => VUndefined
              end in
     if truthy c then
       '(s, doc1) <- renderToString 2 c (new_Document paragraph_of_children) ;;
       node <- paragraph_of_children alert_handler
                 [VObj (set_entry "children" (VStr s) [("children", VStr "hi")])] ;;
       renderToString 2 node doc1
     else
       node <- paragraph_of_children alert_handler [VObj [("children", VStr "hi")]] ;;
       renderToString 2 node (new_Document paragraph_of_children)).
Proof.
  apply (proj1 component_called_with_props_only paragraph_of_children alert_handler
           [("children", VStr "hi")] 2 (new_Document paragraph_of_children)).
  reflexivity.
Defined.

(** C7, as stated, fails: a node of unrecognized shape does not render as the
    empty string.  The empty object renders [<undefined></undefined>], an
    object whose [type] is a number renders a tag of that number. *)
Lemma unrecognized_node_renders_a_tag :
  unrecognized (VObj []) = true
  /\ renderToString 2 (VObj []) (new_Document second_argument)
     = Ok ("<undefined></undefined>", new_Document second_argument)
  /\ unrecognized (VObj [("type", VNum 5)]) = true
  /\ renderToString 2 (VObj [("type", VNum 5)]) (new_Document second_argument)
     = Ok ("<5></5>", new_Document second_argument)
  /\ "<undefined></undefined>" <> "".
Proof. repeat split. discriminate. Qed.

(** C7, amended.  A node of unrecognized shape takes the element path: it is
    serialized by [#parseTag] with its [type] and [props] fields (an empty
    attribute map when [props] is missing), so whatever it returns is a tag
    named by the text of [type], [<undefined ...>...</undefined>] when there
    is none, and not the empty string. *)
Theorem unrecognized_node_takes_element_path :
  forall fuel element doc,
    unrecognized element = true ->
    renderToString (S fuel) element doc
    = parseTag (renderToString fuel) (element_type element) (element_props element) doc
    /\ (forall out doc',
           renderToString (S fuel) element doc = Ok (out, doc') ->
           out <> ""
           /\ exists tag rest,
               to_str (element_type element) = Ok tag
               /\ out = "<" ++ tag ++ rest ++ "</" ++ tag ++ ">").
Proof.
  intros fuel element doc U.
  assert (renderToString (S fuel) element doc
          = parseTag (renderToString fuel) (element_type element)
              (element_props element) doc) as E.
  { destruct element as [| | | | |d|f|items|entries]; try discriminate U.
    - reflexivity.
    - reflexivity.
    - cbn [renderToString element_type element_props].
      unfold render_element. cbn [get_member].
      cbn [unrecognized] in U.
      destruct (lookup "type" entries) as [t|];
        destruct (lookup "props" entries) as [p|];
        try destruct t; try discriminate U; try destruct p; reflexivity. }
  split; [exact E|].
  intros out doc' H. rewrite E in H.
  apply parseTag_shape in H as (tag & rest & T & ->).
  split; [discriminate | eauto].
Qed.

Lemma unrecognized_node_takes_element_path_witness :
  renderToString 2 (VObj [("type", VNum 5)]) (new_Document second_argument)
  = parseTag (renderToString 1) (element_type (VObj [("type", VNum 5)]))
      (element_props (VObj [("type", VNum 5)])) (new_Document second_argument)
  /\ (forall out doc',
         renderToString 2 (VObj [("type", VNum 5)]) (new_Document second_argument)
         = Ok (out, doc') ->
         out <> ""
         /\ exists tag rest,
             to_str (element_type (VObj [("type", VNum 5)])) = Ok tag
             /\ out = "<" ++ tag ++ rest ++ "</" ++ tag ++ ">").
Proof.
  apply (unrecognized_node_takes_element_path 1 (VObj [("type", VNum 5)])
           (new_Document second_argument)).
  reflexivity.
Defined.

(** C10. The counter and the registry are fields of the Document and
    [renderToDynamicMarkup] never resets them: a second render on the same
    Document numbers its identifiers from where the first stopped, and the
    deferred script of its page holds the bindings of both renders.  Two
    buttons rendered one after the other on one Document get [button_0] and
    [button_1], and the second page binds both. *)
Theorem second_render_continues_numbering :
  (forall n m first second doc out1 doc1 out2 doc2,
      renderToDynamicMarkup n first doc = Ok (out1, doc1) ->
      renderToDynamicMarkup m second doc1 = Ok (out2, doc2) ->
      exists log1 log2 content2,
        identifier doc1 = identifier doc + length log1
        /\ listeners doc1 = (listeners doc ++ registry_from (identifier doc) log1)%list
        /\ identifier doc2 = identifier doc1 + length log2
        /\ listeners doc2
           = (listeners doc ++ registry_from (identifier doc) log1
                ++ registry_from (identifier doc1) log2)%list
        /\ renderToString m second doc1 = Ok (content2, doc2)
        /\ out2
           = page_top doc2 content2
               ++ ("                    <script>" ++ nl
                  ++ "document.addEventListener('DOMContentLoaded', function() {" ++ nl
                  ++ join (nl ++ nl) (listeners doc ++ registry_from (identifier doc) log1
                          ++ registry_from (identifier doc + length log1) log2)%list ++ nl
                  ++ "});" ++ nl
                  ++ "                    </script>" ++ nl)
               ++ page_bottom doc2)
  /\ (forall invoke f g,
         exists doc1 doc2 out1,
           renderToDynamicMarkup 2 (button f) (new_Document invoke) = Ok (out1, doc1)
           /\ identifier doc1 = 1
           /\ listeners doc1 = [button_binding 0 f]
           /\ renderToDynamicMarkup 2 (button g) doc1
              = Ok (page_top doc2
                      ("<button data-identifier=" ++ dq ++ "button_1" ++ dq
                         ++ " data-listeners=" ++ dq ++ "click" ++ dq
                         ++ ">Click me</button>")
                      ++ ("                    <script>" ++ nl
                            ++ "document.addEventListener('DOMContentLoaded', function() {"
                            ++ nl
                            ++ (("const button_0 = document.querySelector('[data-identifier="
                                   ++ dq ++ "button_0" ++ dq ++ "]');" ++ nl
                                   ++ "button_0.addEventListener(" ++ dq ++ "click" ++ dq
                                   ++ ", " ++ fn_source f ++ ");")
                                  ++ (nl ++ nl)
                                  ++ ("const button_1 = document.querySelector('[data-identifier="
                                        ++ dq ++ "button_1" ++ dq ++ "]');" ++ nl
                                        ++ "button_1.addEventListener(" ++ dq ++ "click" ++ dq
                                        ++ ", " ++ fn_source g ++ ");"))
                            ++ nl
                            ++ "});" ++ nl
                            ++ "                    </script>" ++ nl)
                      ++ page_bottom doc2,
                    doc2)
           /\ identifier doc2 = 2
           /\ listeners doc2 = [button_binding 0 f; button_binding 1 g]).
Proof.
  split.
  - intros n m first second doc out1 doc1 out2 doc2 H1 H2.
    unfold renderToDynamicMarkup in H1, H2.
    bind_inv H1. bind_inv H2.
    destruct x as [c1 d1], x0 as [c2 d2].
    injection H1 as <- <-. injection H2 as <- <-.
    pose proof Hx0 as R2.
    apply renderToString_logs in Hx as [log1 [E1 _]].
    apply renderToString_logs in Hx0 as [log2 [E2 _]].
    exists log1, log2, c2.
    assert (identifier d1 = identifier doc + length log1) as I1
        by (rewrite E1; reflexivity).
    assert (listeners d1 = (listeners doc ++ registry_from (identifier doc) log1)%list)
      as L1 by (rewrite E1; reflexivity).
    assert (listeners d2 = (listeners d1 ++ registry_from (identifier d1) log2)%list)
      as L2 by (rewrite E2; reflexivity).
    repeat split; auto.
    + rewrite E2. reflexivity.
    + rewrite L2, L1, <- app_assoc. reflexivity.
    + unfold page, script_block. rewrite L2, L1, I1, <- app_assoc. reflexivity.
  - intros invoke f g.
    exists (with_registry (new_Document invoke) 1 [button_binding 0 f]),
      (with_registry (new_Document invoke) 2 [button_binding 0 f; button_binding 1 g]).
    eexists. repeat split; reflexivity.
Qed.

Lemma second_render_continues_numbering_witness :
  exists log1 log2 content2,
    identifier (with_registry (new_Document second_argument) 1
                  [button_binding 0 alert_handler])
    = identifier (new_Document second_argument) + length log1
    /\ listeners (with_registry (new_Document second_argument) 1
                    [button_binding 0 alert_handler])
       = (listeners (new_Document second_argument)
            ++ registry_from (identifier (new_Document second_argument)) log1)%list
    /\ identifier (with_registry (new_Document second_argument) 2
                     [button_binding 0 alert_handler; button_binding 1 alert_handler])
       = identifier (with_registry (new_Document second_argument) 1
                       [button_binding 0 alert_handler]) + length log2
    /\ listeners (with_registry (new_Document second_argument) 2
                    [button_binding 0 alert_handler; button_binding 1 alert_handler])
       = (listeners (new_Document second_argument)
            ++ registry_from (identifier (new_Document second_argument)) log1
            ++ registry_from
                 (identifier (with_registry (new_Document second_argument) 1
                                [button_binding 0 alert_handler])) log2)%list
    /\ renderToString 2 (button alert_handler)
         (with_registry (new_Document second_argument) 1
            [button_binding 0 alert_handler])
       = Ok (content2,
             with_registry (new_Document second_argument) 2
               [button_binding 0 alert_handler; button_binding 1 alert_handler])
    /\ page (with_registry (new_Document second_argument) 2
               [button_binding 0 alert_handler; button_binding 1 alert_handler])
         (button_markup 1)
       = page_top
           (with_registry (new_Document second_argument) 2
              [button_binding 0 alert_handler; button_binding 1 alert_handler])
           content2
           ++ ("                    <script>" ++ nl
                 ++ "document.addEventListener('DOMContentLoaded', function() {" ++ nl
                 ++ join (nl ++ nl)
                      (listeners (new_Document second_argument)
                         ++ registry_from (identifier (new_Document second_argument)) log1
                         ++ registry_from
                              (identifier (new_Document second_argument) + length log1)
                              log2)%list
                 ++ nl
                 ++ "});" ++ nl
                 ++ "                    </script>" ++ nl)
           ++ page_bottom
                (with_registry (new_Document second_argument) 2
                   [button_binding 0 alert_handler; button_binding 1 alert_handler]).
Proof.
  apply (proj1 second_render_continues_numbering 2 2
           (button alert_handler) (button alert_handler)
           (new_Document second_argument)
           (page (with_registry (new_Document second_argument) 1
                    [button_binding 0 alert_handler]) (button_markup 0))).
  - reflexivity.
  - reflexivity.
Defined.

(* ================================================================== *)
(** * Further properties of the code *)

(** ** Tags with simple attribute values *)

Lemma attribute_step_simple (acc : tag_locals) (key : string) (v : value) :
  simple_value v = true ->
  attribute_step acc (key, v)
  = Ok {| html := html acc ++ attribute_text (key, v);
          children := if String.eqb key "children" then v else children acc;
          eventListeners := (eventListeners acc ++ event_bindings [(key, v)])%list |}.
Proof.
  intros S. destruct acc as [h c evs].
  unfold attribute_step, attribute_text, set_html, written_key. cbn [event_bindings].
  destruct (String.eqb key "children") eqn:K; cbn [negb andb].
  - destruct v; rewrite append_empty_r, app_nil_r; reflexivity.
  - destruct v as [| |[|]|n|s|d|f|items|entries]; try discriminate S;
      cbn [is_function typeof js_type_eqb negb html children eventListeners];
      rewrite ?andb_false_r, ?append_empty_r, ?app_nil_r;
      try reflexivity.
    destruct (startsWith (toLowerCase key) "on"); cbn [andb];
      rewrite ?andb_false_r, ?append_empty_r, ?app_nil_r; reflexivity.
Qed.

Lemma forEach_entry_simple (attributes : list (string * value)) :
  forall acc,
    simple_attributes attributes = true ->
    forEach_entry attributes acc
    = Ok {| html := html acc ++ attributes_text attributes;
            children := children_of attributes (children acc);
            eventListeners := (eventListeners acc ++ event_bindings attributes)%list |}.
Proof.
  induction attributes as [|[key v] rest IH]; intros acc S.
  - destruct acc. simpl. now rewrite append_empty_r, app_nil_r.
  - simpl in S. apply andb_prop in S as [Sv Sr].
    cbn [forEach_entry]. rewrite (attribute_step_simple _ _ _ Sv). cbn [bind].
    rewrite (IH _ Sr). cbn [html children eventListeners attributes_text children_of].
    rewrite (event_bindings_cons (key, v) rest), append_assoc, app_assoc.
    reflexivity.
Qed.

Lemma children_of_simple (attributes : list (string * value)) :
  forall default,
    simple_attributes attributes = true ->
    simple_value default = true ->
    simple_value (children_of attributes default) = true.
Proof.
  induction attributes as [|[key v] rest IH]; intros default S D; simpl.
  - exact D.
  - simpl in S. apply andb_prop in S as [Sv Sr].
    apply IH; [exact Sr|]. now destruct (String.eqb key "children").
Qed.

Lemma renderToString_simple (v : value) (fuel : nat) (doc : Document) :
  simple_value v = true ->
  renderToString (S (S fuel)) v doc = Ok (child_text v, doc).
Proof. destruct v; intros S; try discriminate S; reflexivity. Qed.

Lemma parseTag_simple (tag : string) (attributes : list (string * value))
      (fuel : nat) (doc : Document) :
  simple_attributes attributes = true ->
  parseTag (renderToString (S (S fuel))) (VStr tag) (VObj attributes) doc
  = Ok (tag_markup tag attributes doc, snd (opening_tag tag attributes doc)).
Proof.
  intros S. unfold parseTag, tag_markup, opening_tag.
  cbn [to_str object_entries own_entries bind].
  rewrite (forEach_entry_simple _ _ S).
  cbn [bind html children eventListeners app].
  destruct (register_listeners _ _ doc) as [h doc1] eqn:R.
  rewrite renderToString_simple by (now apply children_of_simple).
  reflexivity.
Qed.

(** ** Trees without components *)

Lemma with_registry_same (doc : Document) :
  with_registry doc (identifier doc + 0) (listeners doc ++ [])%list = doc.
Proof. symmetry. apply extends_refl. Qed.

Lemma markup_list (items : list Node) (counter : nat) :
  markup (List items) counter = markup_each items counter.
Proof.
  cbn [markup]. revert counter.
  induction items as [|item rest IH]; intros counter; [reflexivity|].
  simpl. now rewrite IH.
Qed.

Lemma depth_item (items : list Node) (item : Node) :
  In item items ->
  depth item <= fold_right (fun item m => Nat.max (depth item) m) 0 items.
Proof.
  induction items as [|x rest IH]; simpl; intros H; [contradiction|].
  destruct H as [->|H]; [lia|]. specialize (IH H). lia.
Qed.

Lemma depth_positive (nd : Node) : 1 <= depth nd.
Proof. destruct nd; simpl; lia. Qed.

Section Items.

Variable n : nat.
Hypothesis render_item :
  forall nd doc,
    plain_node nd = true ->
    depth nd <= n ->
    renderToString n (to_value nd) doc
    = Ok (markup nd (identifier doc),
          with_registry doc (identifier doc + length (discover nd))
            (listeners doc ++ registry_from (identifier doc) (discover nd))%list).

Lemma render_each_items (items : list Node) :
  forall h doc,
    forallb plain_node items = true ->
    (forall item, In item items -> depth item <= n) ->
    render_each (renderToString n) (map to_value items) h doc
    = Ok (h ++ markup_each items (identifier doc),
          with_registry doc (identifier doc + length (flat_map discover items))
            (listeners doc
               ++ registry_from (identifier doc) (flat_map discover items))%list).
Proof.
  induction items as [|item rest IH]; intros h doc P D.
  - simpl. now rewrite append_empty_r, with_registry_same.
  - simpl in P. apply andb_prop in P as [Pi Pr].
    cbn [map render_each].
    rewrite (render_item item doc Pi (D item (or_introl eq_refl))). cbn [bind].
    rewrite (IH _ _ Pr (fun x Hx => D x (or_intror Hx))).
    cbn [identifier listeners with_registry markup_each flat_map].
    rewrite length_app, registry_from_app, append_assoc, Nat.add_assoc, <- app_assoc.
    reflexivity.
Qed.

End Items.

Lemma renderToString_plain_node (fuel : nat) :
  forall nd doc,
    plain_node nd = true ->
    depth nd <= fuel ->
    renderToString fuel (to_value nd) doc
    = Ok (markup nd (identifier doc),
          with_registry doc (identifier doc + length (discover nd))
            (listeners doc ++ registry_from (identifier doc) (discover nd))%list).
Proof.
  induction fuel as [|n IH]; intros nd doc P D.
  - pose proof (depth_positive nd). lia.
  - destruct nd as [s|k|b| | |items|content|tagName attributes content];
      try (cbn [to_value renderToString markup discover length];
           now rewrite with_registry_same).
    + (* a boolean: two levels *)
      cbn [depth] in D. destruct n as [|n]; [lia|].
      cbn [discover length markup]. rewrite with_registry_same. reflexivity.
    + (* a list *)
      cbn [depth] in D. cbn [plain_node] in P.
      cbn [to_value renderToString discover].
      rewrite (render_each_items n IH items "" doc P).
      * now rewrite markup_list.
      * intros item H. apply depth_item in H. lia.
    + (* a fragment *)
      cbn [depth] in D. cbn [plain_node] in P.
      cbn. destruct (truthy (to_value content)) eqn:T.
      * rewrite (IH content doc P) by lia. reflexivity.
      * rewrite (falsy_discover _ T). cbn [length]. now rewrite with_registry_same.
    + (* an element *)
      cbn [depth] in D. cbn [plain_node] in P. apply andb_prop in P as [Pa Pc].
      cbn [to_value renderToString]. unfold render_element.
      cbn [get_member lookup String.eqb Ascii.eqb Bool.eqb bind typeof].
      unfold parseTag. cbn [to_str object_entries own_entries bind].
      rewrite forEach_entry_app, (forEach_entry_simple _ _ Pa). cbn [bind].
      cbn [forEach_entry attribute_step String.eqb Ascii.eqb Bool.eqb bind
           html children eventListeners app].
      unfold register_listeners. cbn [eventListeners html children].
      cbn [markup discover].
      destruct (event_bindings attributes) as [|e evs] eqn:E.
      * rewrite (IH content doc Pc) by lia. cbn [bind].
        rewrite !append_assoc. reflexivity.
      * rewrite (IH content _ Pc) by lia. cbn [bind].
        cbn [identifier listeners with_registry length registry_from].
        rewrite !append_assoc, <- app_assoc, Nat.add_succ_r. reflexivity.
Qed.

(** ** The render pass does not read the metadata *)

Lemma register_listeners_redress (dress : Document) (tag : string)
      (acc : tag_locals) (doc : Document) :
  register_listeners tag acc (redress dress doc)
  = (fst (register_listeners tag acc doc),
     redress dress (snd (register_listeners tag acc doc))).
Proof. unfold register_listeners. destruct (eventListeners acc); reflexivity. Qed.

Section Redress.

Variable dress : Document.
Variable render : value -> Document -> outcome (string * Document).
Hypothesis render_redress :
  forall element doc,
    render element (redress dress doc) = redress_result dress (render element doc).

Lemma parseTag_redress (type attributes : value) (doc : Document) :
  parseTag render type attributes (redress dress doc)
  = redress_result dress (parseTag render type attributes doc).
Proof.
  unfold parseTag.
  destruct (to_str type) as [tag| |]; cbn [bind]; try reflexivity.
  destruct (object_entries attributes) as [entries| |]; cbn [bind]; try reflexivity.
  destruct (forEach_entry entries _) as [acc| |]; cbn [bind]; try reflexivity.
  rewrite register_listeners_redress.
  destruct (register_listeners tag acc doc) as [h doc1]. cbn [fst snd].
  rewrite render_redress.
  destruct (render (children acc) doc1) as [[inner doc2]| |]; reflexivity.
Qed.

Lemma render_each_redress (items : list value) :
  forall h doc,
    render_each render items h (redress dress doc)
    = redress_result dress (render_each render items h doc).
Proof.
  induction items as [|el rest IH]; intros h doc; cbn [render_each].
  - reflexivity.
  - rewrite render_redress.
    destruct (render el doc) as [[s doc1]| |]; cbn [redress_result bind];
      [apply IH | reflexivity | reflexivity].
Qed.

Lemma render_element_redress (element : value) (doc : Document) :
  render_element render element (redress dress doc)
  = redress_result dress (render_element render element doc).
Proof.
  unfold render_element.
  destruct (get_member element "type") as [type| |]; cbn [bind]; try reflexivity.
  destruct (get_member element "props") as [p| |]; cbn [bind]; try reflexivity.
  set (props := match p with VUndefined => VObj [] | _ => p end).
  destruct (typeof type); try apply parseTag_redress.
  - destruct (get_member props "children") as [c| |]; cbn [bind]; try reflexivity.
    destruct (truthy c); [|reflexivity].
    rewrite render_redress.
    destruct (render c doc) as [[s doc1]| |]; reflexivity.
  - destruct (get_member props "children") as [c| |]; cbn [bind]; try reflexivity.
    destruct (truthy c).
    + rewrite render_redress.
      destruct (render c doc) as [[s doc1]| |]; cbn [redress_result bind];
        try reflexivity.
      cbn [createComponent redress].
      destruct (createComponent doc1 type _) as [node| |]; cbn [bind];
        try reflexivity.
      apply render_redress.
    + cbn [createComponent redress].
      destruct (createComponent doc type props) as [node| |]; cbn [bind];
        try reflexivity.
      apply render_redress.
Qed.

End Redress.

Lemma renderToString_redress (dress : Document) (fuel : nat) :
  forall element doc,
    renderToString fuel element (redress dress doc)
    = redress_result dress (renderToString fuel element doc).
Proof.
  induction fuel as [|n IH]; intros element doc; [reflexivity|].
  destruct element; try reflexivity;
    try apply (render_element_redress dress _ IH).
  apply (render_each_redress dress _ IH).
Qed.

(** ** Arrays *)

Lemma render_each_prefix (render : value -> Document -> outcome (string * Document))
      (items : list value) :
  forall h doc,
    render_each render items h doc
    = prefix_result h (render_each render items "" doc).
Proof.
  induction items as [|el rest IH]; intros h doc; cbn [render_each].
  - cbn. now rewrite append_empty_r.
  - destruct (render el doc) as [[s doc1]| |]; cbn [bind]; try reflexivity.
    rewrite (IH (h ++ s)), (IH ("" ++ s)).
    destruct (render_each render rest "" doc1) as [[t doc2]| |]; cbn; try reflexivity.
    now rewrite append_assoc.
Qed.

Lemma render_each_app (render : value -> Document -> outcome (string * Document))
      (l1 l2 : list value) :
  forall h doc,
    render_each render (l1 ++ l2)%list h doc
    = ('(s, doc1) <- render_each render l1 h doc ;; render_each render l2 s doc1).
Proof.
  induction l1 as [|el rest IH]; intros h doc; cbn [render_each app].
  - reflexivity.
  - destruct (render el doc) as [[s doc1]| |]; cbn [bind]; try reflexivity.
    apply IH.
Qed.

(** ** Attribute maps after [attributes.children = content] *)

Lemma set_entry_attributes_text (c : value) (attributes : list (string * value)) :
  attributes_text (set_entry "children" c attributes) = attributes_text attributes.
Proof.
  induction attributes as [|[key v] rest IH]; [reflexivity|].
  cbn [set_entry]. destruct (String.eqb key "children") eqn:K.
  - cbn [attributes_text attribute_text]. now rewrite K.
  - cbn [attributes_text]. now rewrite IH.
Qed.

Lemma set_entry_event_bindings (c : value) (attributes : list (string * value)) :
  event_bindings (set_entry "children" c attributes) = event_bindings attributes.
Proof.
  induction attributes as [|[key v] rest IH]; [now destruct c|].
  cbn [set_entry]. destruct (String.eqb key "children") eqn:K.
  - rewrite (event_bindings_cons (key, c)), (event_bindings_cons (key, v)).
    cbn [event_bindings]. rewrite K. now destruct c, v.
  - rewrite (event_bindings_cons (key, v)), (event_bindings_cons (key, v) rest).
    now rewrite IH.
Qed.

Lemma set_entry_simple (c : value) (attributes : list (string * value)) :
  simple_value c = true ->
  simple_attributes attributes = true ->
  simple_attributes (set_entry "children" c attributes) = true.
Proof.
  intros C. induction attributes as [|[key v] rest IH]; intros S.
  - cbn. now rewrite C.
  - cbn in S. apply andb_prop in S as [Sv Sr].
    cbn [set_entry]. destruct (String.eqb key "children"); cbn.
    + now rewrite C.
    + rewrite Sv. now apply IH.
Qed.

Lemma children_of_absent (attributes : list (string * value)) :
  forall default,
    ~ In "children" (map fst attributes) ->
    children_of attributes default = default.
Proof.
  induction attributes as [|[key v] rest IH]; intros default H; [reflexivity|].
  cbn [children_of]. cbn in H.
  destruct (String.eqb_spec key "children") as [->|N]; [tauto|].
  apply IH. tauto.
Qed.

(** In an object, whose keys are distinct, the children written are the
    children read. *)
Lemma children_of_set_entry (c : value) (attributes : list (string * value)) :
  forall default,
    NoDup (map fst attributes) ->
    children_of (set_entry "children" c attributes) default = c.
Proof.
  induction attributes as [|[key v] rest IH]; intros default N; [reflexivity|].
  cbn in N. inversion N as [|k ks Hk Hr]; subst.
  cbn [set_entry]. destruct (String.eqb_spec key "children") as [->|K].
  - cbn [children_of]. rewrite String.eqb_refl. now apply children_of_absent.
  - cbn [children_of]. apply String.eqb_neq in K. rewrite K. now apply IH.
Qed.

(* ================================================================== *)
(** * Further statements *)



(** X2. A tree of scalars, lists, fragments and elements in which no
    attribute binds an event leaves the Document as it was: no identifier is
    minted, nothing is registered, and the deferred script of the page holds
    the registry it held before, nothing at all on a fresh Document. *)
Theorem tree_without_handlers_registers_nothing :
  forall fuel nd doc out doc',
    discover nd = [] ->
    renderToDynamicMarkup fuel (to_value nd) doc = Ok (out, doc') ->
    doc' = doc
    /\ exists content,
        renderToString fuel (to_value nd) doc = Ok (content, doc)
        /\ out = page_top doc content ++ script_block (listeners doc) ++ page_bottom doc
        /\ (listeners doc = [] ->
            out = page_top doc content
                    ++ ("                    <script>" ++ nl
                          ++ "document.addEventListener('DOMContentLoaded', function() {"
                          ++ nl ++ nl ++ "});" ++ nl
                          ++ "                    </script>" ++ nl)
                    ++ page_bottom doc).
Proof.
  intros fuel nd doc out doc' N H.
  unfold renderToDynamicMarkup in H. bind_inv H. destruct x as [content d].
  injection H as <- <-.
  pose proof (renderToString_discover _ _ _ _ _ Hx) as [E _].
  rewrite N in E. cbn [length registry_from] in E.
  rewrite with_registry_same in E. subst d.
  split; [reflexivity|]. exists content. repeat split; auto.
  intros L. unfold page. rewrite L. reflexivity.
Qed.

Lemma tree_without_handlers_registers_nothing_witness :
  new_Document second_argument = new_Document second_argument
  /\ exists content,
      renderToString 3
        (to_value (Element "p" [("className", VStr "note")] (Text "hello")))
        (new_Document second_argument)
      = Ok (content, new_Document second_argument)
      /\ page (new_Document second_argument)
           ("<p class=" ++ dq ++ "note" ++ dq ++ ">hello</p>")
         = page_top (new_Document second_argument) content
             ++ script_block (listeners (new_Document second_argument))
             ++ page_bottom (new_Document second_argument)
      /\ (listeners (new_Document second_argument) = [] ->
          page (new_Document second_argument)
            ("<p class=" ++ dq ++ "note" ++ dq ++ ">hello</p>")
          = page_top (new_Document second_argument) content
              ++ ("                    <script>" ++ nl
                    ++ "document.addEventListener('DOMContentLoaded', function() {"
                    ++ nl ++ nl ++ "});" ++ nl
                    ++ "                    </script>" ++ nl)
              ++ page_bottom (new_Document second_argument)).
Proof.
  apply (tree_without_handlers_registers_nothing 3
           (Element "p" [("className", VStr "note")] (Text "hello"))
           (new_Document second_argument)).
  - reflexivity.
  - reflexivity.
Defined.

(** X3. The render of a tree without components, in which no code of the
    caller runs, writes nothing but the counter and the registry: the
    language, title, fragments, noscript text and creation callback of the
    Document are those it had; the counter does not go down; the registry
    keeps every entry it had, in place, and gains one entry for each step of
    the counter. *)
Theorem render_writes_counter_and_registry_only :
  forall fuel nd doc out doc',
    renderToDynamicMarkup fuel (to_value nd) doc = Ok (out, doc') ->
    lang doc' = lang doc
    /\ title doc' = title doc
    /\ metas doc' = metas doc
    /\ links doc' = links doc
    /\ styles doc' = styles doc
    /\ headerScripts doc' = headerScripts doc
    /\ bodyScripts doc' = bodyScripts doc
    /\ noScript doc' = noScript doc
    /\ createComponent doc' = createComponent doc
    /\ identifier doc' = identifier doc + length (discover nd)
    /\ firstn (length (listeners doc)) (listeners doc') = listeners doc
    /\ length (listeners doc') = length (listeners doc) + (identifier doc' - identifier doc).
Proof.
  intros fuel nd doc out doc' H.
  unfold renderToDynamicMarkup in H. bind_inv H. destruct x as [content d].
  injection H as _ <-.
  apply renderToString_discover in Hx as [E _]. rewrite E.
  cbn [lang title metas links styles headerScripts bodyScripts noScript
       createComponent identifier listeners with_registry].
  repeat split; try lia.
  - rewrite firstn_app, Nat.sub_diag, firstn_all. cbn. apply app_nil_r.
  - rewrite length_app, registry_from_length. lia.
Qed.

Lemma render_writes_counter_and_registry_only_witness :
  let nd := Element "button" [("onClick", VFun alert_handler)] (Text "Click me") in
  let doc := setTitle "Shop" (new_Document second_argument) in
  let doc' := with_registry doc 1 [button_binding 0 alert_handler] in
  lang doc' = lang doc
  /\ title doc' = title doc
  /\ metas doc' = metas doc
  /\ links doc' = links doc
  /\ styles doc' = styles doc
  /\ headerScripts doc' = headerScripts doc
  /\ bodyScripts doc' = bodyScripts doc
  /\ noScript doc' = noScript doc
  /\ createComponent doc' = createComponent doc
  /\ identifier doc' = identifier doc + length (discover nd)
  /\ firstn (length (listeners doc)) (listeners doc') = listeners doc
  /\ length (listeners doc') = length (listeners doc) + (identifier doc' - identifier doc).
Proof.
  apply (render_writes_counter_and_registry_only 2
           (Element "button" [("onClick", VFun alert_handler)] (Text "Click me"))
           (setTitle "Shop" (new_Document second_argument))
           (page (with_registry (setTitle "Shop" (new_Document second_argument)) 1
                    [button_binding 0 alert_handler]) (button_markup 0))).
  reflexivity.
Defined.

(** X4. A render reads nothing of the Document but the counter, the registry
    and the creation callback: on a Document that differs in its language,
    title, noscript text or fragments, it returns the same content, throws
    the same exception or recurses as long, and leaves the same counter and
    registry.  So the setters and the pushes of the builder methods, called
    before a render, do not change the markup of the body. *)
Theorem render_ignores_metadata :
  (forall dress fuel element doc,
      renderToString fuel element (redress dress doc)
      = redress_result dress (renderToString fuel element doc))
  /\ (forall l t n doc,
         setLang l (setTitle t (setNoScript n doc))
         = redress (setLang l (setTitle t (setNoScript n doc))) doc)
  /\ (forall a b c d e doc,
         push_meta a (push_link b (push_style c (push_headerScript d
           (push_bodyScript e doc))))
         = redress (push_meta a (push_link b (push_style c (push_headerScript d
                      (push_bodyScript e doc))))) doc).
Proof.
  split; [|split].
  - intros dress fuel element doc. apply renderToString_redress.
  - reflexivity.
  - reflexivity.
Qed.

(** X5. The counter counts the registry: [#identifier] equals the length of
    [#listeners] in a new Document, and every method of the class keeps it
    so, the renders, the five builder methods and the four setters. *)
Theorem counter_counts_registry_always :
  (forall invoke, counter_counts_registry (new_Document invoke))
  /\ (forall fuel element doc out doc',
         counter_counts_registry doc ->
         renderToDynamicMarkup fuel element doc = Ok (out, doc') ->
         counter_counts_registry doc')
  /\ (forall fuel attributes doc doc',
         counter_counts_registry doc ->
         addMeta fuel attributes doc = Ok doc' \/ addLink fuel attributes doc = Ok doc' ->
         counter_counts_registry doc')
  /\ (forall fuel attributes content wait doc attributes' doc',
         counter_counts_registry doc ->
         addStyle fuel attributes content doc = Ok (attributes', doc')
         \/ addHeaderScript fuel attributes content wait doc = Ok (attributes', doc')
         \/ addBodyScript fuel attributes content wait doc = Ok (attributes', doc') ->
         counter_counts_registry doc')
  /\ (forall l t n callback doc,
         counter_counts_registry doc ->
         counter_counts_registry
           (setLang l (setTitle t (setNoScript n
              (setCreateComponentCallback callback doc))))).
Proof.
  assert (forall doc doc' log,
             extends doc doc' log ->
             counter_counts_registry doc -> counter_counts_registry doc') as Keep.
  { intros doc doc' log [E _] C. unfold counter_counts_registry in *.
    rewrite E. cbn [identifier listeners with_registry].
    rewrite length_app, registry_from_length. lia. }
  assert (forall fuel tag attributes doc fragment doc1,
             counter_counts_registry doc ->
             parseTag (renderToString fuel) tag attributes doc = Ok (fragment, doc1) ->
             counter_counts_registry doc1) as Tag.
  { intros fuel tag attributes doc fragment doc1 C H.
    apply (parseTag_logs _ (renderToString_logs fuel)) in H as [log L].
    eapply Keep; eassumption. }
  split; [reflexivity|]. split; [|split; [|split]].
  - intros fuel element doc out doc' C H.
    unfold renderToDynamicMarkup in H. bind_inv H. destruct x as [content d].
    injection H as _ <-.
    apply renderToString_logs in Hx as [log L]. eapply Keep; eassumption.
  - intros fuel attributes doc doc' C [H|H];
      unfold addMeta, addLink in H; bind_inv H; destruct x as [fragment d];
      injection H as <-; apply (Tag _ _ _ _ _ _ C Hx).
  - intros fuel attributes content wait doc attributes' doc' C [H|[H|H]];
      unfold addStyle, addHeaderScript, addBodyScript in H; cbv zeta in H;
      bind_inv H; destruct x as [fragment d];
      injection H as _ <-; apply (Tag _ _ _ _ _ _ C Hx).
  - intros l t n callback doc C. exact C.
Qed.

Lemma counter_counts_registry_always_witness :
  counter_counts_registry
    (with_registry (new_Document second_argument) 1 [button_binding 0 alert_handler]).
Proof.
  apply (proj1 (proj2 counter_counts_registry_always) 2 (button alert_handler)
           (new_Document second_argument)
           (page (with_registry (new_Document second_argument) 1
                    [button_binding 0 alert_handler]) (button_markup 0))).
  - reflexivity.
  - reflexivity.
Defined.


(** X7. A fragment renders its children and nothing else, whatever its other
    props, handlers included; children that are falsy ([0], the empty string,
    [false], [null], [undefined], or none) it drops, where an element renders
    them as any other child: [<>{0}</>] is empty and [<div>{0}</div>] is
    [<div>0</div>]. *)
Theorem fragment_drops_falsy_children :
  forall fuel description props doc,
    let c := match lookup "children" props with
             | Some c => c
             | None => VUndefined
             end in
    renderToString (S fuel)
      (VObj [("type", VSymbol description); ("props", VObj props)]) doc
    = (if truthy c then renderToString fuel c doc else Ok ("", doc))
    /\ (truthy c = false ->
        renderToString (S (S (S fuel))) (div [("children", c)]) doc
        = Ok ("<div>" ++ child_text c ++ "</div>", doc)).
Proof.
  intros fuel description props doc c. split.
  - cbn [renderToString]. unfold render_element.
    cbn [get_member lookup String.eqb Ascii.eqb Bool.eqb bind typeof].
    fold c. destruct (lookup "children" props) as [x|]; cbn [bind]; subst c.
    + destruct (truthy x); [|reflexivity].
      destruct (renderToString fuel x doc) as [[s doc1]| |]; reflexivity.
    + reflexivity.
  - intros T. destruct c as [| |[|]|n|s|d|f|items|entries]; try discriminate T;
      reflexivity.
Qed.

Lemma fragment_drops_falsy_children_witness :
  let c := match lookup "children" [("children", VNum 0)] with
           | Some c => c
           | None => VUndefined
           end in
  renderToString 3
    (VObj [("type", VSymbol "react.fragment");
           ("props", VObj [("children", VNum 0)])])
    (new_Document second_argument)
  = (if truthy c
     then renderToString 2 c (new_Document second_argument)
     else Ok ("", new_Document second_argument))
  /\ (truthy c = false ->
      renderToString 5 (div [("children", c)]) (new_Document second_argument)
      = Ok ("<div>" ++ child_text c ++ "</div>", new_Document second_argument)).
Proof.
  exact (fragment_drops_falsy_children 2 "react.fragment" [("children", VNum 0)]
           (new_Document second_argument)).
Defined.

(** X8. Nothing is escaped.  A string attribute value is written between the
    quotes as it is, so a value that holds a quote closes the attribute: one
    attribute whose value is [a" k="c] gives the tag text of the two
    attributes [a] and [c].  A text node is written as it is, so the text
    [<tag>text</tag>] renders as the element does. *)
Theorem nothing_is_escaped :
  forall k1 k2 a c acc fuel tag text doc,
    k1 <> "children" -> k2 <> "children" -> k2 <> "className" ->
    forEach_entry [(k1, VStr (a ++ dq ++ " " ++ k2 ++ "=" ++ dq ++ c))] acc
    = forEach_entry [(k1, VStr a); (k2, VStr c)] acc
    /\ renderToString (S fuel) (VStr ("<" ++ tag ++ ">" ++ text ++ "</" ++ tag ++ ">")) doc
       = renderToString (S (S fuel))
           (VObj [("type", VStr tag); ("props", VObj [("children", VStr text)])]) doc.
Proof.
  intros k1 k2 a c acc fuel tag text doc K1 K2 C2. split; [|reflexivity].
  cbn [forEach_entry].
  rewrite !attribute_step_simple by reflexivity. cbn [bind].
  rewrite attribute_step_simple by reflexivity.
  cbn [bind html children eventListeners event_bindings attribute_text].
  apply String.eqb_neq in K1, K2, C2. unfold written_key. rewrite K1, K2, C2.
  rewrite !app_nil_r, !append_assoc. reflexivity.
Qed.

Lemma nothing_is_escaped_witness :
  forEach_entry
    [("title", VStr ("a" ++ dq ++ " " ++ "onload" ++ "=" ++ dq ++ "alert(1)"))]
    {| html := "<img"; children := VStr ""; eventListeners := [] |}
  = forEach_entry [("title", VStr "a"); ("onload", VStr "alert(1)")]
      {| html := "<img"; children := VStr ""; eventListeners := [] |}
  /\ renderToString 1 (VStr ("<" ++ "b" ++ ">" ++ "x" ++ "</" ++ "b" ++ ">"))
       (new_Document second_argument)
     = renderToString 2
         (VObj [("type", VStr "b"); ("props", VObj [("children", VStr "x")])])
         (new_Document second_argument).
Proof.
  apply (nothing_is_escaped "title" "onload" "a" "alert(1)"
           {| html := "<img"; children := VStr ""; eventListeners := [] |}
           0 "b" "x" (new_Document second_argument));
    discriminate.
Defined.

(** X9. The creation callback set by [setCreateComponentCallback] is used
    for every component node a render meets, the root included: it is called
    with the callable and the props, truthy children rendered to their markup
    first, and the node it returns is rendered in its place. *)
Theorem creation_callback_resolves_every_component :
  forall callback f props fuel doc,
    let doc0 := setCreateComponentCallback callback doc in
    renderToString (S fuel) (component f props) doc0
    = (let c := match lookup "children" props with
                | Some c => c
                | None => VUndefined
                end in
       if truthy c then
         '(s, doc1) <- renderToString fuel c doc0 ;;
         node <- callback (VFun f) (VObj (set_entry "children" (VStr s) props)) ;;
         renderToString fuel node doc1
       else
         node <- callback (VFun f) (VObj props) ;;
         renderToString fuel node doc0).
Proof.
  intros callback f props fuel doc doc0.
  cbn [renderToString component render_element get_member lookup String.eqb
       Ascii.eqb Bool.eqb bind typeof].
  cbv zeta.
  assert (match lookup "children" props with
          | Some x => Ok x
          | None => Ok VUndefined
          end
          = Ok (match lookup "children" props with
                | Some c => c
                | None => VUndefined
                end)) as -> by (destruct (lookup "children" props); reflexivity).
  cbn [bind].
  destruct (truthy _); [|reflexivity].
  destruct (renderToString fuel _ doc0) as [[s doc1]| |] eqn:R; cbn [bind];
    try reflexivity.
  apply renderToString_logs in R as [log [E _]].
  assert (createComponent doc1 = callback) as -> by (now rewrite E).
  reflexivity.
Qed.

(** ** The builder methods *)

Lemma opening_tag_without_handlers (tag : string) (attributes : list (string * value))
      (doc : Document) :
  event_bindings attributes = [] ->
  opening_tag tag attributes doc = ("<" ++ tag ++ attributes_text attributes, doc).
Proof. intros E. unfold opening_tag, register_listeners. cbn. now rewrite E. Qed.

Lemma tag_markup_without_handlers (tag : string) (attributes : list (string * value))
      (doc : Document) :
  event_bindings attributes = [] ->
  tag_markup tag attributes doc
  = "<" ++ tag ++ attributes_text attributes ++ ">"
      ++ child_text (children_of attributes (VStr "")) ++ "</" ++ tag ++ ">".
Proof.
  intros E. unfold tag_markup. rewrite (opening_tag_without_handlers _ _ _ E).
  cbn [fst]. now rewrite !append_assoc.
Qed.

Lemma addMeta_simple (fuel : nat) (attributes : list (string * value))
      (doc : Document) :
  simple_attributes attributes = true ->
  addMeta (S (S fuel)) attributes doc
  = Ok (push_meta (tag_markup "meta" attributes doc)
          (snd (opening_tag "meta" attributes doc))).
Proof. intros H. unfold addMeta. now rewrite (parseTag_simple _ _ _ _ H). Qed.

Lemma addLink_simple (fuel : nat) (attributes : list (string * value))
      (doc : Document) :
  simple_attributes attributes = true ->
  addLink (S (S fuel)) attributes doc
  = Ok (push_link (tag_markup "link" attributes doc)
          (snd (opening_tag "link" attributes doc))).
Proof. intros H. unfold addLink. now rewrite (parseTag_simple _ _ _ _ H). Qed.





Lemma script_methods_simple (fuel : nat) (attributes : list (string * value))
      (content : value) (wait : bool) (doc : Document) :
  simple_attributes attributes = true ->
  NoDup (map fst attributes) ->
  event_bindings attributes = [] ->
  let attributes1 := script_attributes attributes content wait in
  let inner := match script_children content wait with
               | Some text => text
               | None => child_text (children_of attributes (VStr ""))
               end in
  let fragment := "<script" ++ attributes_text attributes ++ ">" ++ inner
                    ++ "</script>" in
  addHeaderScript (S (S fuel)) attributes content wait doc
  = Ok (attributes1, push_headerScript fragment doc)
  /\ addBodyScript (S (S fuel)) attributes content wait doc
     = Ok (attributes1, push_bodyScript fragment doc).
Proof.
  intros Hsimple N E attributes1 inner fragment.
  assert (parseTag (renderToString (S (S fuel))) (VStr "script") (VObj attributes1) doc
          = Ok (fragment, doc)) as P.
  { unfold attributes1, fragment, inner, script_attributes.
    destruct (script_children content wait) as [text|].
    - assert (simple_attributes (set_entry "children" (VStr text) attributes) = true)
        as S1 by (now apply set_entry_simple).
      assert (event_bindings (set_entry "children" (VStr text) attributes) = [])
        as E1 by (now rewrite set_entry_event_bindings).
      rewrite (parseTag_simple _ _ _ _ S1).
      rewrite (tag_markup_without_handlers _ _ _ E1),
        (opening_tag_without_handlers _ _ _ E1).
      rewrite set_entry_attributes_text, (children_of_set_entry _ _ _ N).
      reflexivity.
    - rewrite (parseTag_simple _ _ _ _ Hsimple).
      rewrite (tag_markup_without_handlers _ _ _ E),
        (opening_tag_without_handlers _ _ _ E).
      reflexivity. }
  unfold addHeaderScript, addBodyScript. cbv zeta. fold attributes1.
  rewrite P. cbn [bind]. split; reflexivity.
Qed.



(** X13. The builder methods share the counter with the renders: an
    attribute map that binds a handler makes [addLink] mint the identifier
    [link_<counter>] and register its listeners at once, so the identifiers
    of a tree rendered afterwards start one higher. *)
Theorem builder_handler_consumes_an_identifier :
  forall fuel attributes doc e evs n nd,
    simple_attributes attributes = true ->
    event_bindings attributes = e :: evs ->
    plain_node nd = true ->
    depth nd <= n ->
    exists doc1,
      addLink (S (S fuel)) attributes doc = Ok doc1
      /\ identifier doc1 = S (identifier doc)
      /\ listeners doc1
         = (listeners doc
              ++ [listener_entry (mk_identifier "link" (identifier doc)) (e :: evs)])%list
      /\ exists doc2,
          renderToString n (to_value nd) doc1
          = Ok (markup nd (S (identifier doc)), doc2).
Proof.
  intros fuel attributes doc e evs n nd Hsimple E P D.
  pose proof (addLink_simple fuel attributes doc Hsimple) as L.
  unfold opening_tag, register_listeners in L.
  cbn [eventListeners html snd] in L. rewrite E in L. cbn [snd] in L.
  eexists. split; [exact L|].
  cbn [identifier listeners push_link with_registry].
  split; [reflexivity|]. split; [reflexivity|].
  eexists. rewrite (renderToString_plain_node n nd _ P D). reflexivity.
Qed.

Lemma builder_handler_consumes_an_identifier_witness :
  exists doc1,
    addLink 2 [("rel", VStr "stylesheet"); ("onLoad", VFun alert_handler)]
      (new_Document second_argument)
    = Ok doc1
    /\ identifier doc1 = S (identifier (new_Document second_argument))
    /\ listeners doc1
       = (listeners (new_Document second_argument)
            ++ [listener_entry
                  (mk_identifier "link" (identifier (new_Document second_argument)))
                  ({| type := "load"; listener := fn_source alert_handler |} :: [])])%list
    /\ exists doc2,
        renderToString 2
          (to_value (Element "button" [("onClick", VFun alert_handler)]
                       (Text "Click me")))
          doc1
        = Ok (markup (Element "button" [("onClick", VFun alert_handler)]
                        (Text "Click me"))
                (S (identifier (new_Document second_argument))),
              doc2).
Proof.
  apply (builder_handler_consumes_an_identifier 0
           [("rel", VStr "stylesheet"); ("onLoad", VFun alert_handler)]
           (new_Document second_argument)
           {| type := "load"; listener := fn_source alert_handler |} [] 2
           (Element "button" [("onClick", VFun alert_handler)] (Text "Click me"))).
  - reflexivity.
  - reflexivity.
  - reflexivity.
  - simpl. lia.
Defined.

(** ** Across renders, and where a render does not return *)

(** X14. One Document never mints an identifier twice: the identifiers of
    two renders on the same Document, one after the other, are pairwise
    distinct, across the two renders as within each. *)
Theorem identifiers_are_never_reused :
  forall n m first second doc out1 doc1 out2 doc2,
    renderToString n first doc = Ok (out1, doc1) ->
    renderToString m second doc1 = Ok (out2, doc2) ->
    exists log1 log2,
      listeners doc1 = (listeners doc ++ registry_from (identifier doc) log1)%list
      /\ listeners doc2
         = (listeners doc ++ registry_from (identifier doc) (log1 ++ log2))%list
      /\ identifiers_from (identifier doc) (log1 ++ log2)
         = (identifiers_from (identifier doc) log1
              ++ identifiers_from (identifier doc1) log2)%list
      /\ NoDup (identifiers_from (identifier doc) (log1 ++ log2)).
Proof.
  intros n m first second doc out1 doc1 out2 doc2 H1 H2.
  apply renderToString_logs in H1 as [log1 L1].
  apply renderToString_logs in H2 as [log2 L2].
  pose proof (extends_trans _ _ _ _ _ L1 L2) as [E _].
  destruct L1 as [E1 _].
  exists log1, log2. rewrite E, E1.
  cbn [listeners identifier with_registry].
  repeat split; auto using identifiers_from_NoDup.
  generalize (identifier doc). clear.
  induction log1 as [|[tag evs] rest IH]; intros c; cbn.
  - now rewrite Nat.add_0_r.
  - rewrite IH. now rewrite Nat.add_succ_r.
Qed.

Lemma identifiers_are_never_reused_witness :
  exists log1 log2,
    listeners (with_registry (new_Document second_argument) 1
                 [button_binding 0 alert_handler])
    = (listeners (new_Document second_argument)
         ++ registry_from (identifier (new_Document second_argument)) log1)%list
    /\ listeners (with_registry (new_Document second_argument) 2
                    [button_binding 0 alert_handler; button_binding 1 alert_handler])
       = (listeners (new_Document second_argument)
            ++ registry_from (identifier (new_Document second_argument))
                 (log1 ++ log2))%list
    /\ identifiers_from (identifier (new_Document second_argument)) (log1 ++ log2)
       = (identifiers_from (identifier (new_Document second_argument)) log1
            ++ identifiers_from
                 (identifier (with_registry (new_Document second_argument) 1
                                [button_binding 0 alert_handler])) log2)%list
    /\ NoDup (identifiers_from (identifier (new_Document second_argument))
                (log1 ++ log2)).
Proof.
  apply (identifiers_are_never_reused 2 2 (button alert_handler) (button alert_handler)
           (new_Document second_argument) (button_markup 0)
           (with_registry (new_Document second_argument) 1
              [button_binding 0 alert_handler])
           (button_markup 1)).
  - reflexivity.
  - reflexivity.
Defined.

(** X15. A [null] where the code expects an object aborts the render with an
    exception, where a missing value does not: an element whose [props] is
    [null] throws, while one without [props] renders as the empty tag; a
    [style] attribute that is [null] throws, after any simple attributes
    before it, while [undefined] is written as text. *)
Theorem null_props_or_style_throws :
  (forall fuel t entries doc,
      lookup "type" entries = Some t ->
      typeof t = TString \/ typeof t = TSymbol \/ typeof t = TFunction ->
      lookup "props" entries = Some VNull ->
      exists e, renderToString (S fuel) (VObj entries) doc = Throw e)
  /\ (forall fuel tag doc,
         renderToString (S (S fuel)) (VObj [("type", VStr tag)]) doc
         = Ok ("<" ++ tag ++ "></" ++ tag ++ ">", doc))
  /\ (forall fuel tag key before after doc,
         toLowerCase key = "style" ->
         simple_attributes before = true ->
         (exists e,
             renderToString (S fuel)
               (VObj [("type", VStr tag);
                      ("props", VObj (before ++ (key, VNull) :: after)%list)]) doc
             = Throw e)
         /\ renderToString (S (S fuel))
              (VObj [("type", VStr tag); ("props", VObj [(key, VUndefined)])]) doc
            = Ok ("<" ++ tag ++ " " ++ key ++ "=" ++ dq ++ "undefined" ++ dq
                    ++ "></" ++ tag ++ ">", doc)).
Proof.
  split; [|split].
  - intros fuel t entries doc T K P.
    cbn [renderToString]. unfold render_element. cbn [get_member].
    rewrite T, P. cbn [bind].
    destruct t; cbn [typeof] in K;
      try (destruct K as [K|[K|K]]; discriminate K);
      cbn [typeof get_member bind]; eexists; reflexivity.
  - intros fuel tag doc. cbn. now rewrite ?append_assoc.
  - intros fuel tag key before after doc K Hsimple.
    assert (String.eqb key "children" = false) as C.
    { apply String.eqb_neq. intros ->. discriminate K. }
    assert (String.eqb key "className" = false) as N.
    { apply String.eqb_neq. intros ->. discriminate K. }
    assert (startsWith (toLowerCase key) "on" = false) as O
        by (now rewrite K).
    split.
    + cbn [renderToString]. unfold render_element.
      cbn [get_member lookup String.eqb Ascii.eqb Bool.eqb bind typeof].
      unfold parseTag. cbn [to_str object_entries own_entries bind].
      rewrite forEach_entry_app, (forEach_entry_simple _ _ Hsimple). cbn [bind].
      cbn [forEach_entry]. unfold attribute_step at 1.
      rewrite C, O, K. cbn. eexists. reflexivity.
    + cbn [renderToString]. unfold render_element.
      cbn [get_member lookup String.eqb Ascii.eqb Bool.eqb bind typeof].
      unfold parseTag. cbn [to_str object_entries own_entries bind forEach_entry].
      rewrite attribute_step_simple by reflexivity.
      cbn [bind attribute_text event_bindings html children eventListeners app].
      unfold written_key. rewrite C, N.
      unfold register_listeners. cbn [eventListeners html children].
      cbn [bind]. rewrite !append_assoc. reflexivity.
Qed.

Lemma null_props_or_style_throws_witness :
  (exists e,
      renderToString 2
        (VObj [("type", VStr "p");
               ("props", VObj ([("id", VStr "x")] ++ ("Style", VNull) :: [])%list)])
        (new_Document second_argument)
      = Throw e)
  /\ renderToString 2
       (VObj [("type", VStr "p"); ("props", VObj [("Style", VUndefined)])])
       (new_Document second_argument)
     = Ok ("<" ++ "p" ++ " " ++ "Style" ++ "=" ++ dq ++ "undefined" ++ dq
             ++ "></" ++ "p" ++ ">", new_Document second_argument).
Proof.
  apply (proj2 (proj2 null_props_or_style_throws) 0 "p" "Style" [("id", VStr "x")] []
           (new_Document second_argument)).
  - reflexivity.
  - reflexivity.
Defined.

Lemma render_component_without_children (f : callable)
      (props : list (string * value)) (fuel : nat) (doc : Document) :
  truthy (match lookup "children" props with
          | Some c => c
          | None => VUndefined
          end) = false ->
  renderToString (S fuel) (component f props) doc
  = (node <- createComponent doc (VFun f) (VObj props) ;;
     renderToString fuel node doc).
Proof.
  intros T.
  cbn [renderToString component render_element get_member lookup String.eqb
       Ascii.eqb Bool.eqb bind typeof].
  cbv zeta.
  destruct (lookup "children" props) as [c|]; cbn [bind]; rewrite T; reflexivity.
Qed.

(** X16. No cycle is detected: a component without children that returns
    itself is resolved again and again, and its render returns nothing,
    however deep the recursion is allowed to go. *)
Theorem component_returning_itself_never_returns :
  forall invoke f props doc,
    createComponent doc = createComponent (new_Document invoke) ->
    truthy (match lookup "children" props with
            | Some c => c
            | None => VUndefined
            end) = false ->
    invoke f [VObj props] = Ok (component f props) ->
    forall fuel, renderToString fuel (component f props) doc = Diverge.
Proof.
  intros invoke f props doc D T R fuel.
  induction fuel as [|n IH]; [reflexivity|].
  rewrite (render_component_without_children _ _ _ _ T), D.
  cbn [createComponent new_Document call]. rewrite R. exact IH.
Qed.

Lemma component_returning_itself_never_returns_witness :
  renderToString 50 (component alert_handler [("id", VStr "loop")])
    (new_Document returns_itself)
  = Diverge.
Proof.
  exact (component_returning_itself_never_returns returns_itself alert_handler
           [("id", VStr "loop")] (new_Document returns_itself)
           eq_refl eq_refl eq_refl 50).
Defined.

(* ================================================================== *)
(** * The order of the identifiers, and renders that agree *)

(** ** The render pass uses the creation callback only for what it answers *)

Lemma register_listeners_callback (cb : value -> value -> outcome value)
      (tag : string) (acc : tag_locals) (doc : Document) :
  register_listeners tag acc (setCreateComponentCallback cb doc)
  = (fst (register_listeners tag acc doc),
     setCreateComponentCallback cb (snd (register_listeners tag acc doc))).
Proof. unfold register_listeners. destruct (eventListeners acc); reflexivity. Qed.

Lemma same_answers_extends (cb : value -> value -> outcome value)
      (doc doc' : Document) (log : list discovery) :
  extends doc doc' log -> same_answers cb doc -> same_answers cb doc'.
Proof. intros [E _] A component props. rewrite E. apply A. Qed.

Section Callback.

Variable cb : value -> value -> outcome value.
Variable render : value -> Document -> outcome (string * Document).
Hypothesis render_logs : logs render.
Hypothesis render_follows : follows_callback cb render.

Lemma parseTag_follows (type attributes : value) :
  forall doc out doc',
    same_answers cb doc ->
    parseTag render type attributes doc = Ok (out, doc') ->
    parseTag render type attributes (setCreateComponentCallback cb doc)
    = Ok (out, setCreateComponentCallback cb doc').
Proof.
  intros doc out doc' A H. unfold parseTag in *.
  bind_fwd H. bind_fwd H. bind_fwd H.
  rewrite register_listeners_callback.
  pose proof (register_listeners_extends x x1 doc) as R.
  destruct (register_listeners x x1 doc) as [h doc1]. cbn [fst snd] in *.
  bind_inv H. destruct x2 as [inner doc2]. injection H as <- <-.
  apply render_follows in Hx2; [|eapply same_answers_extends; eassumption].
  rewrite Hx2. reflexivity.
Qed.

Lemma render_each_follows (items : list value) :
  forall h doc out doc',
    same_answers cb doc ->
    render_each render items h doc = Ok (out, doc') ->
    render_each render items h (setCreateComponentCallback cb doc)
    = Ok (out, setCreateComponentCallback cb doc').
Proof.
  induction items as [|el rest IH]; intros h doc out doc' A H; cbn [render_each] in *.
  - injection H as <- <-. reflexivity.
  - bind_inv H. destruct x as [s doc1].
    pose proof (render_logs _ _ _ _ Hx) as [log L].
    apply render_follows in Hx; [|exact A]. rewrite Hx. cbn [bind].
    apply IH; [eapply same_answers_extends; eassumption | exact H].
Qed.

Lemma render_element_follows (element : value) :
  forall doc out doc',
    same_answers cb doc ->
    render_element render element doc = Ok (out, doc') ->
    render_element render element (setCreateComponentCallback cb doc)
    = Ok (out, setCreateComponentCallback cb doc').
Proof.
  intros doc out doc' A H. unfold render_element in *.
  bind_fwd H. bind_fwd H.
  set (props := match x0 with VUndefined => VObj [] | _ => x0 end) in *.
  destruct (typeof x); try (now apply parseTag_follows).
  - bind_fwd H. destruct (truthy x1).
    + bind_inv H. destruct x2 as [s doc1]. injection H as <- <-.
      apply render_follows in Hx2; [|exact A]. rewrite Hx2. reflexivity.
    + injection H as <- <-. reflexivity.
  - bind_fwd H. destruct (truthy x1).
    + bind_inv H. destruct x2 as [s doc1].
      pose proof (render_logs _ _ _ _ Hx2) as [log L].
      pose proof (same_answers_extends _ _ _ _ L A) as A1.
      apply render_follows in Hx2; [|exact A]. rewrite Hx2. cbn [bind].
      bind_inv H. cbn [createComponent setCreateComponentCallback].
      rewrite A1, Hx3. cbn [bind].
      apply render_follows; assumption.
    + bind_inv H. cbn [createComponent setCreateComponentCallback].
      rewrite A, Hx2. cbn [bind].
      apply render_follows; assumption.
Qed.

End Callback.

Lemma renderToString_follows (cb : value -> value -> outcome value) (fuel : nat) :
  follows_callback cb (renderToString fuel).
Proof.
  induction fuel as [|n IH]; intros element doc out doc' A H; [discriminate|].
  cbn [renderToString] in *.
  destruct element;
    try (injection H as <- <-; reflexivity);
    try (now apply (render_element_follows cb _ (renderToString_logs n) IH)).
  now apply (render_each_follows cb _ (renderToString_logs n) IH).
Qed.

(** C1, as stated, fails: the identifiers are not assigned in depth-first,
    left-to-right order when a component has children.  The children are
    serialized before the component is called, so in
    [<F><button onClick={h}>Click me</button></F>], where [F] wraps its
    children in a [div] with a handler, the button is [button_0] and the
    [div] that encloses it [div_1]; numbered depth-first from the left, the
    same markup would have [div_0] around [button_1]. *)
Lemma component_children_are_numbered_first :
  exists out doc',
    renderToString 4
      (component alert_handler [("children", button alert_handler)])
      (new_Document wrap_in_div)
    = Ok (out, doc')
    /\ out = "<div data-identifier=" ++ dq ++ "div_1" ++ dq
               ++ " data-listeners=" ++ dq ++ "click" ++ dq ++ ">"
               ++ "<button data-identifier=" ++ dq ++ "button_0" ++ dq
               ++ " data-listeners=" ++ dq ++ "click" ++ dq ++ ">Click me</button>"
               ++ "</div>"
    /\ identifier doc' = 2
    /\ listeners doc'
       = [button_binding 0 alert_handler;
          listener_entry "div_1"
            [{| type := "click"; listener := fn_source alert_handler |}]]
    /\ markup wrapped_button 0
       = "<div data-identifier=" ++ dq ++ "div_0" ++ dq
           ++ " data-listeners=" ++ dq ++ "click" ++ dq ++ ">"
           ++ "<button data-identifier=" ++ dq ++ "button_1" ++ dq
           ++ " data-listeners=" ++ dq ++ "click" ++ dq ++ ">Click me</button>"
           ++ "</div>"
    /\ out <> markup wrapped_button 0
    /\ listeners doc' <> registry_from 0 (discover wrapped_button).
Proof.
  do 2 eexists. split; [reflexivity|].
  repeat split; discriminate.
Qed.

(** C1, amended.  In a render pass every identifier minted has the form
    [<tag>_<counter>]; the counter (0 in a fresh Document) advances exactly
    once per element that has at least one event binding and not at all for
    the others; the identifiers are pairwise distinct, and they are assigned,
    and their bindings registered, in the order in which the serializer
    reaches the elements.  On a tree without components that order is
    depth-first and left-to-right, an element before its children, as the
    identifiers stand in the markup.  The children given to a component are
    serialized, and numbered, before the node that the component returns.
    Three sibling buttons with a click handler each get [button_0],
    [button_1], [button_2], and three registry entries in that order. *)
Theorem identifiers_follow_discovery_order :
  (* one element: the identifier, and the counter one further *)
  (forall tag acc doc,
      identifier (snd (register_listeners tag acc doc))
      = identifier doc + (match eventListeners acc with [] => 0 | _ => 1 end)
      /\ (forall e evs,
             eventListeners acc = e :: evs ->
             fst (register_listeners tag acc doc)
             = html acc ++ " data-identifier=" ++ dq
                 ++ (tag ++ "_" ++ decimal (identifier doc)) ++ dq
                 ++ " data-listeners=" ++ dq ++ join ", " (map type (e :: evs)) ++ dq
             /\ listeners (snd (register_listeners tag acc doc))
                = (listeners doc
                     ++ [listener_entry (tag ++ "_" ++ decimal (identifier doc))
                           (e :: evs)])%list))
  (* any pass, components included *)
  /\ (forall fuel element doc out doc',
         renderToString fuel element doc = Ok (out, doc') ->
         exists log : list discovery,
           identifier doc' = identifier doc + length log
           /\ listeners doc'
              = (listeners doc ++ registry_from (identifier doc) log)%list
           /\ Forall (fun e : discovery => snd e <> []) log
           /\ NoDup (identifiers_from (identifier doc) log))
  (* a tree without components: the registry in depth-first order *)
  /\ (forall fuel nd doc out doc',
         renderToString fuel (to_value nd) doc = Ok (out, doc') ->
         identifier doc' = identifier doc + length (discover nd)
         /\ listeners doc'
            = (listeners doc ++ registry_from (identifier doc) (discover nd))%list)
  (* a tree without components: the identifiers in the markup *)
  /\ (forall fuel nd doc,
         plain_node nd = true ->
         depth nd <= fuel ->
         exists doc',
           renderToString fuel (to_value nd) doc = Ok (markup nd (identifier doc), doc')
           /\ identifier doc' = identifier doc + length (discover nd)
           /\ listeners doc'
              = (listeners doc ++ registry_from (identifier doc) (discover nd))%list)
  (* a component: its children first, then what it returns *)
  /\ (forall fuel f props c doc out doc',
         lookup "children" props = Some c ->
         truthy c = true ->
         renderToString (S fuel) (component f props) doc = Ok (out, doc') ->
         exists s doc1 node log1 log2,
           renderToString fuel c doc = Ok (s, doc1)
           /\ createComponent doc (VFun f)
                (VObj (set_entry "children" (VStr s) props)) = Ok node
           /\ renderToString fuel node doc1 = Ok (out, doc')
           /\ listeners doc1
              = (listeners doc ++ registry_from (identifier doc) log1)%list
           /\ listeners doc'
              = (listeners doc ++ registry_from (identifier doc) log1
                   ++ registry_from (identifier doc + length log1) log2)%list)
  (* three sibling buttons *)
  /\ (forall invoke f1 f2 f3,
         identifier (new_Document invoke) = 0
         /\ exists doc',
             renderToString 3 (VArr [button f1; button f2; button f3])
               (new_Document invoke)
             = Ok (button_markup 0 ++ button_markup 1 ++ button_markup 2, doc')
             /\ identifier doc' = 3
             /\ listeners doc'
                = [button_binding 0 f1; button_binding 1 f2; button_binding 2 f3]).
Proof.
  split; [|split; [|split; [|split; [|split]]]].
  - intros tag acc doc. unfold register_listeners. split.
    + destruct (eventListeners acc); simpl; lia.
    + intros e evs E. rewrite E. split; reflexivity.
  - intros fuel element doc out doc' H.
    apply renderToString_logs in H as [log [E F]].
    exists log. rewrite E. simpl.
    repeat split; auto using identifiers_from_NoDup.
  - intros fuel nd doc out doc' H.
    apply renderToString_discover in H as [E _].
    rewrite E. simpl. auto.
  - intros fuel nd doc P D. eexists.
    split; [apply (renderToString_plain_node fuel nd doc P D)|].
    split; reflexivity.
  - intros fuel f props c doc out doc' C T H.
    cbn [renderToString component render_element get_member lookup String.eqb
         Ascii.eqb Bool.eqb bind typeof] in H.
    cbv zeta in H. rewrite C in H. cbn [bind] in H. rewrite T in H.
    bind_inv H. destruct x as [s doc1]. bind_inv H.
    pose proof (renderToString_logs _ _ _ _ _ Hx) as [log1 [E1 _]].
    pose proof (renderToString_logs _ _ _ _ _ H) as [log2 [E2 _]].
    exists s, doc1, x, log1, log2.
    assert (createComponent doc1 = createComponent doc) as Cb
        by (rewrite E1; reflexivity).
    rewrite Cb in Hx0.
    repeat split; auto.
    + rewrite E1. reflexivity.
    + rewrite E2, E1. cbn [listeners identifier with_registry].
      now rewrite <- app_assoc.
  - intros invoke f1 f2 f3. split; [reflexivity|].
    eexists. split; [reflexivity|]. split; reflexivity.
Qed.

Lemma identifiers_follow_discovery_order_witness :
  exists doc',
    renderToString 3 (to_value (three_buttons alert_handler alert_handler alert_handler))
      (new_Document second_argument)
    = Ok (markup (three_buttons alert_handler alert_handler alert_handler)
            (identifier (new_Document second_argument)),
          doc')
    /\ identifier doc'
       = identifier (new_Document second_argument)
         + length (discover (three_buttons alert_handler alert_handler alert_handler))
    /\ listeners doc'
       = (listeners (new_Document second_argument)
            ++ registry_from (identifier (new_Document second_argument))
                 (discover (three_buttons alert_handler alert_handler alert_handler)))%list.
Proof.
  apply (proj1 (proj2 (proj2 (proj2 identifiers_follow_discovery_order))) 3
           (three_buttons alert_handler alert_handler alert_handler)
           (new_Document second_argument)).
  - reflexivity.
  - simpl. lia.
Defined.



